(** * TradingPro: symbol normalisation, timeframe table and indicator engine

    A shallow embedding of [TradingPlatform] (src/app.py) and the properties
    its specification states about it.

    Conventions of the embedding.
    - Python [str] is [string]; symbols are ASCII, so [len] is [String.length]
      and [str.upper] acts on the letters a-z only.
    - Python [int] is [Z]; list positions produced by [range(len(xs))] are
      [Z] values built from [nat].
    - Python/numpy [float] is an abstract number type [F] given by the class
      [PyFloat]: the code is written once over the operations it uses
      (literals, + - * /, unary minus, [** 0.5], [<], [==], [int()]).  Two
      instances are provided: [R] (exact arithmetic, used for every property
      that needs the laws of an ordered field) and the kernel's binary64
      floats (used to run the code on concrete inputs).  Properties proved
      over [R] read the program's numbers as exact reals: rounding, overflow
      and NaN are outside that reading, and no such proof divides by zero.
    - Code that can raise returns a [result]; [try/except Exception] is a
      match on it.  What the handlers [print] is not modelled. *)

From Stdlib Require Import List String Ascii ZArith Bool Lia.
From Stdlib Require Import Reals Lra.
From Stdlib Require Import Floats.
Import ListNotations.

(* [length] is the one of lists; strings use [String.length]. *)
Abbreviation length := List.length (only parsing).

Set Implicit Arguments.

(* ================================================================== *)
(** * Part I: definitions *)
(* ================================================================== *)

(** ** Exceptions and the [result] monad *)

Inductive exn : Type :=
| ZeroDivisionError
| IndexError
| ValueError
| OverflowError
| OtherException (name : string).

Inductive result (A : Type) : Type :=
| Ok (a : A)
| Raise (e : exn).

Arguments Ok {A} a.
Arguments Raise {A} e.

Definition bind {A B : Type} (m : result A) (k : A -> result B) : result B :=
  match m with
  | Ok a => k a
  | Raise e => Raise e
  end.

Notation "x <- m ;; k" := (bind m (fun x => k))
  (at level 61, m at next level, right associativity).
Notation "' pat <- m ;; k" := (bind m (fun x => match x with pat => k end))
  (at level 61, pat pattern, m at next level, right associativity).

(** [for i in idxs: s = body(i, s)], stopping at the first exception. *)
Fixpoint for_each {I S : Type} (body : I -> S -> result S) (idxs : list I) (s : S)
  : result S :=
  match idxs with
  | [] => Ok s
  | i :: rest => s' <- body i s ;; for_each body rest s'
  end.

(** ** Python sequences *)

Module Py.

(** [range(n)] *)
Definition range (n : nat) : list Z := map Z.of_nat (seq 0 n).

(** [len(l)] *)
Definition len {A : Type} (l : list A) : Z := Z.of_nat (length l).

(** A slice bound as Python clamps it: negative bounds count from the end. *)
Definition clamp (n k : Z) : Z :=
  if (k <? 0)%Z then Z.max (k + n) 0 else Z.min k n.

(** [l[lo:hi]] *)
Definition slice {A : Type} (l : list A) (lo hi : Z) : list A :=
  let lo' := clamp (len l) lo in
  let hi' := clamp (len l) hi in
  firstn (Z.to_nat (hi' - lo')) (skipn (Z.to_nat lo') l).

(** [l[i]], raising [IndexError] out of range. *)
Definition index {A : Type} (l : list A) (i : Z) : result A :=
  let j := if (i <? 0)%Z then (i + len l)%Z else i in
  if (j <? 0)%Z then Raise IndexError
  else match nth_error l (Z.to_nat j) with
       | Some x => Ok x
       | None => Raise IndexError
       end.

(** [enumerate(l)] *)
Definition enumerate {A : Type} (l : list A) : list (Z * A) :=
  combine (range (length l)) l.

End Py.

(** ** Strings *)

Definition upper_ascii (c : ascii) : ascii :=
  let n := nat_of_ascii c in
  if (97 <=? n)%nat && (n <=? 122)%nat then ascii_of_nat (n - 32) else c.

(** [s.upper()] *)
Fixpoint upper (s : string) : string :=
  match s with
  | EmptyString => EmptyString
  | String c s' => String (upper_ascii c) (upper s')
  end.

(** [sub in s] for strings: [sub] occurs in [s] as a substring. *)
Fixpoint str_in (sub s : string) : bool :=
  String.prefix sub s ||
  match s with
  | EmptyString => false
  | String _ s' => str_in sub s'
  end.

(** [x in l] for a list of strings. *)
Definition list_in (x : string) (l : list string) : bool :=
  existsb (String.eqb x) l.

(** [d.get(k, default)] for a dict literal, kept as its list of items. *)
Fixpoint dict_get {V : Type} (d : list (string * V)) (k : string) (default : V) : V :=
  match d with
  | [] => default
  | (k', v) :: d' => if String.eqb k k' then v else dict_get d' k default
  end.

(** ** SymbolNormalizer: [format_symbol_for_yahoo] *)

Open Scope string_scope.

Definition indian_exchanges : list string := [".NS"; ".BO"].

Definition common_us_symbols : list string :=
  ["AAPL"; "GOOGL"; "MSFT"; "TSLA"; "AMZN"; "NVDA"; "META"; "SPY"].

Definition format_symbol_for_yahoo (symbol : string) : string :=
  if existsb (fun exchange => str_in exchange symbol) indian_exchanges then symbol
  else if list_in (upper symbol) common_us_symbols then symbol
  else if (String.length symbol <=? 10)%nat && negb (str_in "." symbol)
       then symbol ++ ".NS"
  else symbol.

(** ** TimeframeResolver: [get_timeframe_period] *)

Definition interval_map : list (string * (string * string)) :=
  [ ("1m",  ("1m",  "1d"));
    ("5m",  ("5m",  "5d"));
    ("15m", ("15m", "5d"));
    ("1h",  ("1h",  "1mo"));
    ("4h",  ("1h",  "3mo"));
    ("1d",  ("1d",  "1y"));
    ("2d",  ("1d",  "2y"));
    ("3d",  ("1d",  "2y"));
    ("1w",  ("1wk", "2y"));
    ("2w",  ("1wk", "5y"));
    ("3w",  ("1wk", "5y"));
    ("1M",  ("1mo", "5y"));
    ("2M",  ("1mo", "10y"));
    ("3M",  ("1mo", "10y"));
    ("6M",  ("1mo", "max"));
    ("1Y",  ("1mo", "max")) ].

Definition get_timeframe_period (timeframe : string) : string * string :=
  dict_get interval_map timeframe ("1d", "1y").

Close Scope string_scope.

(** ** Numbers *)

(** The operations the code applies to [float] values. *)
Class PyFloat (F : Type) : Type := {
  of_int : Z -> F;              (* an [int] operand or a literal such as [50.0] *)
  fadd   : F -> F -> F;         (* [x + y] *)
  fsub   : F -> F -> F;         (* [x - y] *)
  fmul   : F -> F -> F;         (* [x * y] *)
  fdiv   : F -> F -> F;         (* [x / y], non-raising (numpy) division *)
  fneg   : F -> F;              (* [-x] *)
  fsqrt  : F -> F;              (* [x ** 0.5] *)
  flt    : F -> F -> bool;      (* [x < y] *)
  feq    : F -> F -> bool;      (* [x == y] *)
  to_int : F -> result Z;       (* [int(x)] *)
  fis_finite : F -> bool        (* [math.isfinite(x)]: neither infinite nor NaN *)
}.

Declare Scope py_scope.
Delimit Scope py_scope with py.
Infix "+" := fadd : py_scope.
Infix "-" := fsub : py_scope.
Infix "*" := fmul : py_scope.
Infix "/" := fdiv : py_scope.
Notation "- x" := (fneg x) : py_scope.
Infix "<?" := flt : py_scope.
Infix "==?" := feq (at level 70, no associativity) : py_scope.

(** ** IndicatorEngine *)

Section IndicatorEngine.

Context {F : Type} `{PyFloat F}.

Local Notation "# z" := (of_int z) (at level 9, z at level 9, format "# z").

(** [sum(xs)]: the built-in starts from the int [0] and adds left to right. *)
Definition py_sum (xs : list F) : F := fold_left fadd xs #0.

(** [x / n] for an [int] [n] on the Python side: a zero divisor raises. *)
Definition truediv (x : F) (n : Z) : result F :=
  if (n =? 0)%Z then Raise ZeroDivisionError else Ok (x / #n)%py.

(** [x ** 2] on a Python float: a finite [x] whose square is out of range
    raises [OverflowError]; an infinite or NaN [x] is squared as it is. *)
Definition square (x : F) : result F :=
  if fis_finite x && negb (fis_finite (x * x)%py) then Raise OverflowError
  else Ok (x * x)%py.

(** [np.diff(a)]: [a[k+1] - a[k]] for each [k]. *)
Fixpoint np_diff (a : list F) : list F :=
  match a with
  | x :: (y :: _) as rest => (y - x)%py :: np_diff rest
  | _ => []
  end.

(** [np.mean(a)]: the sum of the entries over their count (the order in
    which numpy adds is not fixed by its interface; left to right here). *)
Definition np_mean (a : list F) : F :=
  (fold_left fadd a #0 / #(Py.len a))%py.

(** [gains = np.where(deltas > 0, deltas, 0)] *)
Definition gains_of (deltas : list F) : list F :=
  map (fun d => if (#0 <? d)%py then d else #0) deltas.

(** [losses = np.where(deltas < 0, -deltas, 0)] *)
Definition losses_of (deltas : list F) : list F :=
  map (fun d => if (d <? #0)%py then (- d)%py else #0) deltas.

(** The body of the RSI loop once [i >= period]. *)
Definition rsi_step (gains losses : list F) (period i : Z) : F :=
  let avg_gain := np_mean (Py.slice gains (Z.max 0 (i - period)) i) in
  let avg_loss := np_mean (Py.slice losses (Z.max 0 (i - period)) i) in
  if (avg_loss ==? #0)%py then #100
  else
    let rs := (avg_gain / avg_loss)%py in
    (#100 - (#100 / (#1 + rs)))%py.

Definition calculate_rsi (prices : list F) (period : Z) : list F :=
  if (Py.len prices <? period + 1)%Z then repeat #50 (length prices)
  else
    let deltas := np_diff prices in
    let gains := gains_of deltas in
    let losses := losses_of deltas in
    fold_left
      (fun rsi_values i =>
         if (i <? period)%Z then rsi_values ++ [#50]
         else rsi_values ++ [rsi_step gains losses period i])
      (Py.range (length prices)) [].

Definition calculate_sma (values : list F) (period : Z) : result (list F) :=
  for_each
    (fun i sma =>
       if (i <? period - 1)%Z then
         v <- Py.index values i ;;
         Ok (sma ++ [v])
       else
         avg <- truediv (py_sum (Py.slice values (i - period + 1) (i + 1))) period ;;
         Ok (sma ++ [avg]))
    (Py.range (length values)) [].

Definition calculate_bollinger_bands (values : list F) (period : Z) (multiplier : F)
  : result (list F * list F) :=
  sma <- calculate_sma values period ;;
  for_each
    (fun i '(upper, lower) =>
       if (i <? period - 1)%Z then
         v <- Py.index values i ;;
         Ok (upper ++ [(v + #10)%py], lower ++ [(v - #10)%py])
       else
         let slice_values := Py.slice values (i - period + 1) (i + 1) in
         mean <- Py.index sma i ;;
         squares <- for_each (fun x squares =>
                                y <- square (x - mean)%py ;; Ok (squares ++ [y]))
                             slice_values [] ;;
         variance <- truediv (py_sum squares) period ;;
         let std_dev := fsqrt variance in
         Ok (upper ++ [(mean + (multiplier * std_dev))%py],
             lower ++ [(mean - (multiplier * std_dev))%py]))
    (Py.range (length values)) ([], []).

End IndicatorEngine.

(** ** ChartAssembler: [fetch_chart_data] *)

(** One row of the provider's DataFrame as [iterrows()] yields it: the index
    (its [timestamp()], seconds since the epoch) and the five columns, all
    floats in the row's Series. *)
Record Row (F : Type) : Type := {
  index_timestamp : F;
  Open : F;
  High : F;
  Low : F;
  Close : F;
  Volume : F
}.

Module Candle.
Record t (F : Type) : Type := mk {
  timestamp : Z;
  open : F;
  high : F;
  low : F;
  close : F;
  volume : Z
}.
End Candle.

Module RsiPoint.
Record t (F : Type) : Type := mk {
  timestamp : Z;
  value : F;
  ma : F;
  upperBB : F;
  lowerBB : F
}.
End RsiPoint.

Record ChartPayload (F : Type) : Type := {
  candles : list (Candle.t F);
  rsi : list (RsiPoint.t F)
}.

Section ChartAssembler.

Context {F : Type} `{PyFloat F}.

(** The external collaborator:
    [yf.Ticker(formatted_symbol).history(period=period, interval=interval)],
    which returns the rows of a DataFrame or raises. *)
Variable history : string -> string -> string -> result (list (Row F)).

Definition candle_of_row (row : Row F) : result (Candle.t F) :=
  ts <- to_int (index_timestamp row * of_int 1000)%py ;;
  vol <- to_int (Volume row) ;;
  Ok (Candle.mk ts (Open row) (High row) (Low row) (Close row) vol).

(** The body of the [try] block; [Ok None] is its [return None]. *)
Definition chart_body (symbol timeframe : string) : result (option (ChartPayload F)) :=
  let formatted_symbol := format_symbol_for_yahoo symbol in
  let '(interval, period) := get_timeframe_period timeframe in
  hist <- history formatted_symbol period interval ;;
  match hist with
  | [] => Ok None
  | _ :: _ =>
    candles <- for_each
                 (fun row candles => c <- candle_of_row row ;; Ok (candles ++ [c]))
                 hist [] ;;
    let close_prices := map (@Candle.close F) candles in
    let rsi_values := calculate_rsi close_prices 14 in
    rsi_ma <- calculate_sma rsi_values 9 ;;
    '(rsi_upper_bb, rsi_lower_bb) <-
        calculate_bollinger_bands rsi_values 20 (of_int 2) ;;
    rsi_data <- for_each
                  (fun '(i, candle) rsi_data =>
                     v <- Py.index rsi_values i ;;
                     m <- Py.index rsi_ma i ;;
                     u <- Py.index rsi_upper_bb i ;;
                     l <- Py.index rsi_lower_bb i ;;
                     Ok (rsi_data ++
                           [RsiPoint.mk (Candle.timestamp candle) v m u l]))
                  (Py.enumerate candles) [] ;;
    Ok (Some {| candles := candles; rsi := rsi_data |})
  end.

(** [try: ... except Exception: return None] *)
Definition fetch_chart_data (symbol timeframe : string) : option (ChartPayload F) :=
  match chart_body symbol timeframe with
  | Ok r => r
  | Raise _ => None
  end.

End ChartAssembler.

(** ** Number instances *)

(** *** Exact arithmetic

    The numbers read as real numbers: no rounding, no infinity and no NaN,
    hence no [OverflowError] from [** 2] and no error from [int()].  What
    is proved in this instance is stated either for properties that
    rounding does not affect, or under explicit bounds on the size of the
    inputs (see [period_bound], [price_bound], [value_bound]) within which
    the binary64 program neither overflows nor produces a NaN.  Where the
    program's error paths matter, statements are made for every number
    type or in binary64. *)

Definition Rltb (x y : R) : bool := if Rlt_dec x y then true else false.
Definition Reqb (x y : R) : bool := if Req_dec_T x y then true else false.

(** [int(x)]: truncation towards zero. *)
Definition Rtrunc (x : R) : Z :=
  if Rle_dec 0 x then Int_part x else (- Int_part (- x))%Z.

#[export] Instance PyFloat_R : PyFloat R := {|
  of_int := IZR;
  fadd := Rplus;
  fsub := Rminus;
  fmul := Rmult;
  fdiv := Rdiv;
  fneg := Ropp;
  fsqrt := R_sqrt.sqrt;
  flt := Rltb;
  feq := Reqb;
  to_int := fun x => Ok (Rtrunc x);
  fis_finite := fun _ => true
|}.

(** *** binary64 *)

Definition float_of_Z (z : Z) : float :=
  SF2Prim (binary_normalize prec emax z 0 false).

(** [int(x)]: [ValueError] on NaN, [OverflowError] on an infinity. *)
Definition float_to_int (x : float) : result Z :=
  match Prim2SF x with
  | S754_zero _ => Ok 0%Z
  | S754_infinity _ => Raise OverflowError
  | S754_nan => Raise ValueError
  | S754_finite s m e =>
      let mag := if (0 <=? e)%Z then (Zpos m * 2 ^ e)%Z
                 else (Zpos m / 2 ^ (- e))%Z in
      Ok (if s then (- mag)%Z else mag)
  end.

#[export] Instance PyFloat_binary64 : PyFloat float := {|
  of_int := float_of_Z;
  fadd := PrimFloat.add;
  fsub := PrimFloat.sub;
  fmul := PrimFloat.mul;
  fdiv := PrimFloat.div;
  fneg := PrimFloat.opp;
  fsqrt := PrimFloat.sqrt;
  flt := PrimFloat.ltb;
  feq := PrimFloat.eqb;
  to_int := float_to_int;
  fis_finite := PrimFloat.is_finite
|}.

(** ** The specification's formulas

    Written from the words of the specification, to be compared with what
    the code computes. *)

Section SpecFormulas.

Context {F : Type} `{PyFloat F}.

(** [xs[k]] *)
Definition item (xs : list F) (k : nat) : F := nth k xs (of_int 0).

(** The entries [f(lo) .. f(lo + count - 1)]. *)
Definition run (f : nat -> F) (lo count : Z) : list F :=
  map f (seq (Z.to_nat lo) (Z.to_nat count)).

(** The trailing window [values[i-period+1 .. i]], both ends included. *)
Definition trailing_window (values : list F) (i period : Z) : list F :=
  run (item values) (i - period + 1) period.

(** Arithmetic mean: the sum of the entries over their count. *)
Definition mean (xs : list F) : F :=
  (py_sum xs / of_int (Py.len xs))%py.

(** Population variance about [m]: the squared deviations from [m], summed
    and divided by the count (not the count minus one). *)
Definition population_variance (xs : list F) (m : F) : F :=
  (py_sum (map (fun x => ((x - m) * (x - m))%py) xs) / of_int (Py.len xs))%py.

End SpecFormulas.

(** Sizes within binary64's range: the bounds under which the properties
    proved over exact reals are stated. *)
Definition period_bound : Z := 10 ^ 6.
Definition price_bound : R := IZR (10 ^ 300).
Definition value_bound : R := IZR (10 ^ 150).

(** The largest finite binary64 number, (2^53 - 1) * 2^971. *)
Definition binary64_max : R := IZR ((2 ^ 53 - 1) * 2 ^ 971).

Module RsiSpec.

Local Open Scope R_scope.

(** [delta[k] = prices[k+1] - prices[k]] *)
Definition delta (prices : list R) (k : nat) : R :=
  nth (S k) prices 0 - nth k prices 0.

(** [gain[k] = max(delta[k], 0)] *)
Definition gain (prices : list R) (k : nat) : R := Rmax (delta prices k) 0.

(** [loss[k] = max(-delta[k], 0)] *)
Definition loss (prices : list R) (k : nat) : R := Rmax (- delta prices k) 0.

(** The value at an index [i >= period]: rolling means over the delta
    indices [i-period .. i-1]. *)
Definition steady (prices : list R) (period i : Z) : R :=
  let avgGain := mean (run (gain prices) (i - period) period) in
  let avgLoss := mean (run (loss prices) (i - period) period) in
  if Req_dec_T avgLoss 0 then 100
  else 100 - 100 / (1 + avgGain / avgLoss).

End RsiSpec.

(** ** Dicts beyond [get] *)

(** [k in d] *)
Definition dict_has {V : Type} (d : list (string * V)) (k : string) : bool :=
  existsb (fun kv => String.eqb k (fst kv)) d.

(** [d[k]], raising [KeyError] when the key is missing. *)
Fixpoint dict_item {V : Type} (d : list (string * V)) (k : string) : result V :=
  match d with
  | [] => Raise (OtherException "KeyError")
  | (k', v) :: d' => if String.eqb k k' then Ok v else dict_item d' k
  end.

(** [d[k] = v]: the value of an existing key is replaced in place, a new
    key goes to the end. *)
Fixpoint dict_set {V : Type} (d : list (string * V)) (k : string) (v : V)
  : list (string * V) :=
  match d with
  | [] => [(k, v)]
  | (k', v') :: d' =>
      if String.eqb k k' then (k', v) :: d' else (k', v') :: dict_set d' k v
  end.

(** ** The platform's table of popular symbols *)

Open Scope string_scope.

Definition popular_symbols : list (string * list string) :=
  [ ("US", ["AAPL"; "GOOGL"; "MSFT"; "TSLA"; "AMZN"; "NVDA"; "META"; "SPY";
            "QQQ"; "BTC-USD"; "ETH-USD"]);
    ("INDIAN", ["RELIANCE.NS"; "TCS.NS"; "HDFCBANK.NS"; "INFY.NS";
                "HINDUNILVR.NS"; "ITC.NS"; "SBIN.NS"; "BHARTIARTL.NS";
                "KOTAKBANK.NS"; "LT.NS"]) ].

Close Scope string_scope.

(** ** QuoteAssembler: [fetch_symbol_data] *)

(** [ticker.info]: the provider's metadata, a dict with string values for
    the keys the code reads. *)
Definition Info : Type := list (string * string).

Module Quote.
Record t (F : Type) : Type := mk {
  symbol : string;
  name : string;
  price : F;
  change : F;
  changePercent : F
}.
End Quote.

Section QuoteAssembler.

Context {F : Type} `{PyFloat F}.

(** The external collaborator: [yf.Ticker(formatted_symbol).info] and
    [yf.Ticker(formatted_symbol).history(period=period)], each of which
    returns or raises. *)
Variable ticker_info : string -> result Info.
Variable daily_history : string -> string -> result (list (Row F)).

(** The body of the [try] block; [Ok None] is its [return None]. *)
Definition quote_body (symbol : string) : result (option (Quote.t F)) :=
  let formatted_symbol := format_symbol_for_yahoo symbol in
  info <- ticker_info formatted_symbol ;;
  hist <- daily_history formatted_symbol "2d" ;;
  match hist with
  | [] => Ok None
  | _ :: _ =>
    let closes := map (@Close F) hist in
    current_price <- Py.index closes (-1) ;;
    previous_close <- (if (1 <? Py.len hist)%Z then Py.index closes (-2)
                       else Ok current_price) ;;
    let change := (current_price - previous_close)%py in
    let change_percent := ((change / previous_close) * of_int 100)%py in
    Ok (Some (Quote.mk (upper symbol) (dict_get info "longName" symbol)
                       current_price change change_percent))
  end.

(** [try: ... except Exception: return None] *)
Definition fetch_symbol_data (symbol : string) : option (Quote.t F) :=
  match quote_body symbol with
  | Ok r => r
  | Raise _ => None
  end.

End QuoteAssembler.

(** ** Symbol search: [search_symbols] *)

Module SearchResult.
Record t : Type := mk {
  symbol : string;
  name : string;
  price : Z;
  change : Z;
  changePercent : Z
}.
End SearchResult.

Section Search.

Variable ticker_info : string -> result Info.

(** One guarded lookup, [try: ... except: pass], on the state of the
    search: the symbols asked of the provider so far, in order, and the
    results so far.  A lookup that raises leaves the results as they
    were. *)
Definition lookup (sym query : string) (st : list string * list SearchResult.t)
  : list string * list SearchResult.t :=
  let '(asked, results) := st in
  let attempt :=
    info <- ticker_info sym ;;
    if negb (Nat.eqb (length info) 0) && dict_has info "symbol" then
      s <- dict_item info "symbol" ;;
      Ok (results ++
            [SearchResult.mk s
               (dict_get info "longName" (dict_get info "shortName" query))
               0 0 0])
    else Ok results in
  (asked ++ [sym], match attempt with Ok r => r | Raise _ => results end).

(** Returns the symbols asked of the provider together with the results. *)
Definition search_symbols (query : string) : list string * list SearchResult.t :=
  let st := lookup (upper query) query ([], []) in
  let st :=
    if Nat.eqb (length (snd st)) 0 && (String.length query <=? 10)%nat
    then lookup (upper query ++ ".NS")%string query st
    else st in
  (fst st, Py.slice (snd st) 0 10).

End Search.

(** ** The web layer *)

Module Watchlist.
Record t : Type := mk {
  id : string;
  symbols : list string
}.
End Watchlist.

(** What [jsonify] is given. *)
Inductive Json (F : Type) : Type :=
| JQuote (data : Quote.t F)
| JChart (data : ChartPayload F)
| JError (error : string)
| JSearch (results : list SearchResult.t)
| JPopular (table : list (string * list string))
| JWatchlists (watchlists : list Watchlist.t)
| JSuccess (success : bool)
| JWatchlistData (watchlist : Watchlist.t) (symbolData : list (Quote.t F)).

Arguments JError {F} error.
Arguments JSearch {F} results.
Arguments JPopular {F} table.
Arguments JWatchlists {F} watchlists.
Arguments JSuccess {F} success.

(** A response: the JSON body and the HTTP status. *)
Definition Response (F : Type) : Type := (Json F * Z)%type.

(** The session: a dict whose only key in use is ["watchlists"]. *)
Definition Session : Type := list (string * list Watchlist.t).

Section Routes.

Context {F : Type} `{PyFloat F}.

Variable history : string -> string -> string -> result (list (Row F)).
Variable ticker_info : string -> result Info.
Variable daily_history : string -> string -> result (list (Row F)).

(** [GET /api/symbol/<symbol>] *)
Definition get_symbol_data (symbol : string) : Response F :=
  match fetch_symbol_data ticker_info daily_history symbol with
  | Some data => (JQuote data, 200%Z)
  | None => (JError "Symbol not found", 404%Z)
  end.

(** [GET /api/chart/<symbol>/<timeframe>] *)
Definition get_chart_data (symbol timeframe : string) : Response F :=
  match fetch_chart_data history symbol timeframe with
  | Some data => (JChart data, 200%Z)
  | None => (JError "Chart data not found", 404%Z)
  end.

(** [GET /api/search]; [args] is [request.args].  Returns the symbols
    asked of the provider together with the response. *)
Definition search_symbols_route (args : list (string * string))
  : list string * Response F :=
  let query := dict_get args "q" ""%string in
  if (String.length query <? 2)%nat then ([], (JSearch [], 200%Z))
  else
    let '(asked, results) := search_symbols ticker_info query in
    (asked, (JSearch results, 200%Z)).

(** [GET /api/popular] *)
Definition get_popular_symbols : Response F := (JPopular popular_symbols, 200%Z).

(** [GET /api/watchlists] *)
Definition get_watchlists (session : Session) : Response F :=
  (JWatchlists (dict_get session "watchlists" []), 200%Z).

(** [POST /api/watchlists]; [request_json] is the posted body.  Returns the
    session as it is left together with the response. *)
Definition save_watchlists (session : Session) (request_json : list Watchlist.t)
  : Session * Response F :=
  (dict_set session "watchlists" request_json, (JSuccess true, 200%Z)).

(** [GET /api/watchlist/<watchlist_id>/data] *)
Definition get_watchlist_data (session : Session) (watchlist_id : string)
  : Response F :=
  let watchlists := dict_get session "watchlists" [] in
  match find (fun w => String.eqb (Watchlist.id w) watchlist_id) watchlists with
  | None => (JError "Watchlist not found", 404%Z)
  | Some watchlist =>
    let symbol_data :=
      fold_left
        (fun symbol_data symbol =>
           match fetch_symbol_data ticker_info daily_history symbol with
           | Some data => symbol_data ++ [data]
           | None => symbol_data
           end)
        (Watchlist.symbols watchlist) [] in
    (JWatchlistData watchlist symbol_data, 200%Z)
  end.

End Routes.

(** ** Sample data *)

(** Twenty-one daily bars, enough for the steady state of the RSI
    (period 14), of its moving average (period 9) and of its bands
    (period 20). *)
Definition sample_closes : list R :=
  [100; 102; 101; 105; 107; 106; 110; 108; 111; 115; 113; 112; 116; 118;
   117; 121; 119; 122; 126; 124; 127]%R.

Definition sample_bars : list (Row R) :=
  map (fun c => {| index_timestamp := 1700000000; Open := c; High := c; Low := c;
                   Close := c; Volume := 1000 |}%R)
      sample_closes.

(* ================================================================== *)
(** * Part II: properties *)
(* ================================================================== *)

(** ** Runs of the code on concrete inputs (binary64) *)

Example rsi_flat_run :
  calculate_rsi (repeat 100%float 15) 14 = (repeat 50 14 ++ [100])%float.
Proof. vm_compute. reflexivity. Qed.

Example sma_run :
  calculate_sma [1; 2; 3; 4; 5]%float 3 = Ok [1; 2; 2; 3; 4]%float.
Proof. vm_compute. reflexivity. Qed.

Example sma_zero_period_run :
  calculate_sma [1; 2; 3]%float 0 = Raise ZeroDivisionError.
Proof. vm_compute. reflexivity. Qed.

Example bollinger_warmup_run :
  calculate_bollinger_bands [42; 58]%float 20 2%float
  = Ok ([52; 68], [32; 48])%float.
Proof. vm_compute. reflexivity. Qed.

Example slice_run :
  Py.slice [1; 2; 3; 4; 5]%Z 1 3 = [2; 3]%Z /\
  Py.slice [1; 2; 3; 4; 5]%Z (-2) 10 = [4; 5]%Z /\
  Py.index [1; 2; 3]%Z (-1) = Ok 3%Z /\
  Py.index [1; 2; 3]%Z 3 = Raise IndexError.
Proof. repeat split. Qed.

(** ** SymbolNormalizer *)

Lemma prefix_refl (s : string) : String.prefix s s = true.
Proof.
  induction s as [|c s IH]; simpl; [reflexivity|].
  destruct (ascii_dec c c); [exact IH | congruence].
Qed.

Lemma str_in_refl (s : string) : str_in s s = true.
Proof.
  destruct s as [|c s]; [reflexivity|].
  change (str_in (String c s) (String c s))
    with (String.prefix (String c s) (String c s) || str_in (String c s) s).
  rewrite prefix_refl. reflexivity.
Qed.

(** A string occurs in anything it is appended to. *)
Lemma str_in_append (sub s : string) : str_in sub (s ++ sub) = true.
Proof.
  induction s as [|c s IH]; simpl.
  - apply str_in_refl.
  - rewrite IH. apply orb_true_r.
Qed.

Lemma format_symbol_cases (s : string) :
  format_symbol_for_yahoo s = s \/
  format_symbol_for_yahoo s = (s ++ ".NS")%string.
Proof.
  unfold format_symbol_for_yahoo.
  repeat match goal with |- context [if ?b then _ else _] => destruct b end; auto.
Qed.

Lemma format_symbol_qualified (s : string) :
  str_in ".NS" s = true -> format_symbol_for_yahoo s = s.
Proof.
  intros Hin. unfold format_symbol_for_yahoo, indian_exchanges. simpl existsb.
  rewrite Hin. reflexivity.
Qed.

(** C7. Symbol normalisation is idempotent: normalising the result of a
    normalisation returns it unchanged, for every string. *)
Theorem format_symbol_idempotent (s : string) :
  format_symbol_for_yahoo (format_symbol_for_yahoo s) = format_symbol_for_yahoo s.
Proof.
  destruct (format_symbol_cases s) as [E | E]; rewrite E.
  - exact E.
  - apply format_symbol_qualified, str_in_append.
Qed.

(** C8. The suffixing rule: a string with neither ".NS" nor ".BO" inside,
    whose upper-casing is not in the allow-list, of length at most 10 and
    without a dot, gets ".NS" appended; "TCS" becomes "TCS.NS", "AAPL" and
    "RELIANCE.NS" are returned as they are, and the empty string becomes
    ".NS". *)
Theorem format_symbol_suffix_rule :
  (forall raw : string,
      str_in ".NS" raw = false ->
      str_in ".BO" raw = false ->
      list_in (upper raw) common_us_symbols = false ->
      (String.length raw <= 10)%nat ->
      str_in "." raw = false ->
      format_symbol_for_yahoo raw = (raw ++ ".NS")%string) /\
  format_symbol_for_yahoo "TCS" = "TCS.NS"%string /\
  format_symbol_for_yahoo "AAPL" = "AAPL"%string /\
  format_symbol_for_yahoo "RELIANCE.NS" = "RELIANCE.NS"%string /\
  format_symbol_for_yahoo "" = ".NS"%string.
Proof.
  split; [|repeat split].
  intros raw Hns Hbo Hus Hlen Hdot.
  unfold format_symbol_for_yahoo, indian_exchanges. simpl existsb.
  rewrite Hns, Hbo, Hus, Hdot. simpl.
  apply Nat.leb_le in Hlen. rewrite Hlen. reflexivity.
Qed.

(** The rule applied to "INFY", every premise checked by evaluation. *)
Lemma format_symbol_suffix_rule_witness :
  format_symbol_for_yahoo "INFY" = "INFY.NS"%string.
Proof.
  apply (proj1 format_symbol_suffix_rule "INFY"%string);
    first [reflexivity | simpl; lia].
Defined.

(** ** TimeframeResolver *)

(** C9, as the specification has it, fails: "2d" and "3d" do not differ in
    their lookback period. *)
Lemma timeframe_2d_3d_not_asymmetric :
  ~ (fst (get_timeframe_period "2d") = fst (get_timeframe_period "3d") /\
     snd (get_timeframe_period "2d") <> snd (get_timeframe_period "3d")).
Proof. intros [_ Hne]. apply Hne. reflexivity. Qed.

(** C9, amended. "2d" and "3d" resolve to one and the same pair, interval
    "1d" with lookback "2y"; tokens that share an interval and differ in the
    lookback are, for instance, "1d" (lookback "1y") and "2d" (lookback
    "2y"). *)
Theorem timeframe_2d_3d_collapse :
  get_timeframe_period "2d" = ("1d", "2y")%string /\
  get_timeframe_period "3d" = ("1d", "2y")%string /\
  fst (get_timeframe_period "1d") = fst (get_timeframe_period "2d") /\
  snd (get_timeframe_period "1d") <> snd (get_timeframe_period "2d").
Proof. repeat split. discriminate. Qed.

(** ** Loops that append *)

Section Loops.

Context {A B I : Type}.

Lemma fold_left_snoc (g : I -> A) (body : list A -> I -> list A) (l : list I) :
  (forall acc i, In i l -> body acc i = acc ++ [g i]) ->
  forall acc, fold_left body l acc = acc ++ map g l.
Proof.
  induction l as [|i l IH]; intros Hbody acc; simpl.
  - now rewrite app_nil_r.
  - rewrite Hbody by now left.
    rewrite IH by (intros; apply Hbody; now right).
    now rewrite <- app_assoc.
Qed.

Lemma for_each_snoc (g : I -> A) (body : I -> list A -> result (list A)) (l : list I) :
  (forall acc i, In i l -> body i acc = Ok (acc ++ [g i])) ->
  forall acc, for_each body l acc = Ok (acc ++ map g l).
Proof.
  induction l as [|i l IH]; intros Hbody acc; simpl.
  - now rewrite app_nil_r.
  - rewrite Hbody by now left. simpl.
    rewrite IH by (intros; apply Hbody; now right).
    now rewrite <- app_assoc.
Qed.

Lemma for_each_snoc2 (gu : I -> A) (gl : I -> B)
      (body : I -> list A * list B -> result (list A * list B)) (l : list I) :
  (forall u lo i, In i l -> body i (u, lo) = Ok (u ++ [gu i], lo ++ [gl i])) ->
  forall u lo, for_each body l (u, lo) = Ok (u ++ map gu l, lo ++ map gl l).
Proof.
  induction l as [|i l IH]; intros Hbody u lo; simpl.
  - now rewrite !app_nil_r.
  - rewrite Hbody by now left. simpl.
    rewrite IH by (intros; apply Hbody; now right).
    now rewrite <- !app_assoc.
Qed.

(** Read backwards: when every step that returns has appended, a loop that
    returns has appended once per step. *)
Lemma for_each_snoc2_inv (gu : I -> A) (gl : I -> B)
      (body : I -> list A * list B -> result (list A * list B)) (l : list I) :
  (forall u lo i r, In i l -> body i (u, lo) = Ok r ->
                    r = (u ++ [gu i], lo ++ [gl i])) ->
  forall u lo us los,
    for_each body l (u, lo) = Ok (us, los) ->
    us = u ++ map gu l /\ los = lo ++ map gl l.
Proof.
  induction l as [|i l IH]; intros Hbody u lo us los Hr; simpl in Hr.
  - injection Hr as <- <-. now rewrite !app_nil_r.
  - destruct (body i (u, lo)) as [r|e] eqn:E; simpl in Hr; [|discriminate].
    rewrite (Hbody u lo i r (or_introl eq_refl) E) in Hr.
    apply IH in Hr; [|intros u' lo' i' r' Hi'; apply Hbody; now right].
    destruct Hr as [-> ->]. simpl. now rewrite <- !app_assoc.
Qed.

End Loops.

(** ** Python sequences *)

Section Sequences.

Context {A : Type}.
Implicit Types (l : list A) (d : A).

Lemma range_length (n : nat) : length (Py.range n) = n.
Proof. unfold Py.range. now rewrite length_map, length_seq. Qed.

Lemma in_range (n : nat) (i : Z) :
  In i (Py.range n) -> exists k, (k < n)%nat /\ i = Z.of_nat k.
Proof.
  unfold Py.range. intros Hin. apply in_map_iff in Hin as (k & <- & Hk).
  apply in_seq in Hk. exists k. split; [lia | reflexivity].
Qed.

Lemma nth_error_map_range {B : Type} (g : Z -> B) (n k : nat) :
  (k < n)%nat -> nth_error (map g (Py.range n)) k = Some (g (Z.of_nat k)).
Proof.
  intros Hk. unfold Py.range. rewrite map_map.
  rewrite (nth_error_nth' _ (g 0%Z)) by now rewrite length_map, length_seq.
  f_equal. change (g 0%Z) with (g (Z.of_nat 0)).
  rewrite (map_nth (fun x => g (Z.of_nat x)) (seq 0 n) 0%nat k).
  now rewrite seq_nth.
Qed.

Lemma index_nat l d (k : nat) :
  (k < length l)%nat -> Py.index l (Z.of_nat k) = Ok (nth k l d).
Proof.
  intros Hk. unfold Py.index.
  replace (Z.of_nat k <? 0)%Z with false by (symmetry; apply Z.ltb_ge; lia).
  replace (Z.of_nat k <? 0)%Z with false by (symmetry; apply Z.ltb_ge; lia).
  rewrite Nat2Z.id. now rewrite (nth_error_nth' l d Hk).
Qed.

Lemma firstn_seq l d (n : nat) :
  (n <= length l)%nat -> firstn n l = map (fun k => nth k l d) (seq 0 n).
Proof.
  revert n. induction l as [|x l IH]; intros [|n] Hn; simpl in *; try lia;
    try reflexivity.
  f_equal. rewrite <- seq_shift, map_map. apply IH. lia.
Qed.

Lemma firstn_skipn_seq l d (a n : nat) :
  (a + n <= length l)%nat ->
  firstn n (skipn a l) = map (fun k => nth k l d) (seq a n).
Proof.
  revert l. induction a as [|a IH]; intros l Hle.
  - apply firstn_seq. exact Hle.
  - destruct l as [|x l]; simpl in Hle.
    + assert (n = 0)%nat by lia. subst n. reflexivity.
    + simpl skipn. rewrite <- seq_shift, map_map. simpl. apply IH. lia.
Qed.

(** A slice inside the list is the run of its entries. *)
Lemma slice_inside l d (lo hi : Z) :
  (0 <= lo)%Z -> (lo <= hi)%Z -> (hi <= Py.len l)%Z ->
  Py.slice l lo hi
  = map (fun k => nth k l d) (seq (Z.to_nat lo) (Z.to_nat (hi - lo))).
Proof.
  intros Hlo Hle Hhi. unfold Py.slice, Py.clamp.
  replace (lo <? 0)%Z with false by (symmetry; apply Z.ltb_ge; lia).
  replace (hi <? 0)%Z with false by (symmetry; apply Z.ltb_ge; lia).
  rewrite !Z.min_l by lia.
  apply firstn_skipn_seq. unfold Py.len in Hhi. lia.
Qed.

End Sequences.

(** ** IndicatorEngine, for every number type *)

Section EngineLemmas.

Context {F : Type} `{PyFloat F}.

Lemma np_diff_length (a : list F) : length (np_diff a) = (length a - 1)%nat.
Proof.
  induction a as [|x [|y a] IH]; try reflexivity.
  change (np_diff (x :: y :: a)) with ((y - x)%py :: np_diff (y :: a)).
  simpl length in *. lia.
Qed.

Lemma np_diff_nth (a : list F) (d d' : F) (k : nat) :
  (S k < length a)%nat ->
  nth k (np_diff a) d = (nth (S k) a d' - nth k a d')%py.
Proof.
  revert k. induction a as [|x [|y a] IH]; intros k Hk; simpl in Hk; try lia.
  change (np_diff (x :: y :: a)) with ((y - x)%py :: np_diff (y :: a)).
  destruct k as [|k]; [reflexivity|].
  change (nth (S k) ((y - x)%py :: np_diff (y :: a)) d)
    with (nth k (np_diff (y :: a)) d).
  rewrite IH by (simpl; lia). reflexivity.
Qed.

Lemma calculate_rsi_long (prices : list F) (period : Z) :
  (period + 1 <= Py.len prices)%Z ->
  calculate_rsi prices period
  = map (fun i => if (i <? period)%Z then of_int 50
                  else rsi_step (gains_of (np_diff prices))
                                (losses_of (np_diff prices)) period i)
        (Py.range (length prices)).
Proof.
  intros Hlen. unfold calculate_rsi.
  replace (Py.len prices <? period + 1)%Z with false
    by (symmetry; apply Z.ltb_ge; lia).
  cbv zeta.
  rewrite fold_left_snoc
    with (g := fun i => if (i <? period)%Z then of_int 50
                        else rsi_step (gains_of (np_diff prices))
                                      (losses_of (np_diff prices)) period i).
  - reflexivity.
  - intros acc i _. now destruct (i <? period)%Z.
Qed.

Lemma calculate_rsi_short (prices : list F) (period : Z) :
  (Py.len prices < period + 1)%Z ->
  calculate_rsi prices period = repeat (of_int 50) (length prices).
Proof.
  intros Hlen. unfold calculate_rsi.
  now replace (Py.len prices <? period + 1)%Z with true
    by (symmetry; apply Z.ltb_lt; lia).
Qed.

Lemma calculate_rsi_length (prices : list F) (period : Z) :
  length (calculate_rsi prices period) = length prices.
Proof.
  destruct (Z_lt_le_dec (Py.len prices) (period + 1)) as [Hs | Hl].
  - rewrite calculate_rsi_short by exact Hs. apply repeat_length.
  - rewrite calculate_rsi_long by exact Hl.
    now rewrite length_map, range_length.
Qed.

Lemma calculate_rsi_warmup (prices : list F) (period : Z) (k : nat) :
  (k < length prices)%nat -> (Z.of_nat k < period)%Z ->
  nth_error (calculate_rsi prices period) k = Some (of_int 50).
Proof.
  intros Hk Hwarm.
  destruct (Z_lt_le_dec (Py.len prices) (period + 1)) as [Hs | Hl].
  - rewrite calculate_rsi_short by exact Hs. now apply nth_error_repeat.
  - rewrite calculate_rsi_long by exact Hl.
    rewrite nth_error_map_range by exact Hk.
    now replace (Z.of_nat k <? period)%Z with true
      by (symmetry; apply Z.ltb_lt; lia).
Qed.

Lemma calculate_rsi_steady (prices : list F) (period : Z) (k : nat) :
  (k < length prices)%nat -> (period <= Z.of_nat k)%Z ->
  nth_error (calculate_rsi prices period) k
  = Some (rsi_step (gains_of (np_diff prices)) (losses_of (np_diff prices))
                   period (Z.of_nat k)).
Proof.
  intros Hk Hsteady.
  rewrite calculate_rsi_long by (unfold Py.len; lia).
  rewrite nth_error_map_range by exact Hk.
  now replace (Z.of_nat k <? period)%Z with false
    by (symmetry; apply Z.ltb_ge; lia).
Qed.

(** What [calculate_sma] returns when the period is not zero. *)
Lemma calculate_sma_entries (values : list F) (period : Z) :
  period <> 0%Z ->
  exists sma,
    calculate_sma values period = Ok sma /\
    length sma = length values /\
    forall k, (k < length values)%nat ->
      nth_error sma k
      = Some (if (Z.of_nat k <? period - 1)%Z then item values k
              else (py_sum (Py.slice values (Z.of_nat k - period + 1)
                                     (Z.of_nat k + 1))
                    / of_int period)%py).
Proof.
  intros Hp.
  set (g := fun i : Z =>
              if (i <? period - 1)%Z then item values (Z.to_nat i)
              else (py_sum (Py.slice values (i - period + 1) (i + 1))
                    / of_int period)%py).
  exists (map g (Py.range (length values))). split; [|split].
  - unfold calculate_sma.
    rewrite for_each_snoc with (g := g); [reflexivity|].
    intros acc i Hin. apply in_range in Hin as (k & Hk & ->).
    unfold g. destruct (Z.of_nat k <? period - 1)%Z.
    + rewrite (index_nat values (of_int 0) Hk). simpl.
      now rewrite Nat2Z.id.
    + unfold truediv.
      replace (period =? 0)%Z with false by (symmetry; now apply Z.eqb_neq).
      reflexivity.
  - now rewrite length_map, range_length.
  - intros k Hk. rewrite nth_error_map_range by exact Hk.
    unfold g. now rewrite Nat2Z.id.
Qed.

Lemma square_value (x y : F) : square x = Ok y -> y = (x * x)%py.
Proof.
  unfold square. destruct (fis_finite x && negb (fis_finite (x * x)%py));
    [discriminate|]. now intros [= <-].
Qed.

(** The squared deviations that the generator inside [sum] yields. *)
Lemma squares_loop_value (mean : F) (l : list F) :
  forall acc r,
    for_each (fun x squares => y <- square (x - mean)%py ;; Ok (squares ++ [y]))
             l acc = Ok r ->
    r = acc ++ map (fun x => ((x - mean) * (x - mean))%py) l.
Proof.
  induction l as [|x l IH]; intros acc r Hr; cbn [for_each] in Hr.
  - injection Hr as <-. now rewrite app_nil_r.
  - destruct (square (x - mean)%py) as [y|e] eqn:Ey; cbn [bind] in Hr;
      [|discriminate].
    apply square_value in Ey. subst y. apply IH in Hr. rewrite Hr.
    simpl map. now rewrite <- app_assoc.
Qed.

Lemma squares_loop_returns (mean : F) (l : list F) :
  (forall x, In x l -> exists y, square (x - mean)%py = Ok y) ->
  forall acc,
    for_each (fun x squares => y <- square (x - mean)%py ;; Ok (squares ++ [y]))
             l acc
    = Ok (acc ++ map (fun x => ((x - mean) * (x - mean))%py) l).
Proof.
  induction l as [|x l IH]; intros Hl acc; cbn [for_each].
  - now rewrite app_nil_r.
  - destruct (Hl x (or_introl eq_refl)) as [y Ey]. rewrite Ey. cbn [bind].
    rewrite (square_value _ Ey).
    rewrite IH by (intros x' Hx'; apply Hl; now right).
    simpl map. now rewrite <- app_assoc.
Qed.

(** What [calculate_bollinger_bands] does when the period is not zero: it
    returns as soon as no squared deviation is out of range, and what it
    returns is determined entry by entry. *)
Lemma calculate_bollinger_bands_entries (values : list F) (period : Z) (multiplier : F) :
  period <> 0%Z ->
  exists sma,
    calculate_sma values period = Ok sma /\
    length sma = length values /\
    ((forall k x, (k < length values)%nat -> (period - 1 <= Z.of_nat k)%Z ->
                  In x (Py.slice values (Z.of_nat k - period + 1) (Z.of_nat k + 1)) ->
                  exists y, square (x - item sma k)%py = Ok y) ->
     exists upper lower,
       calculate_bollinger_bands values period multiplier = Ok (upper, lower)) /\
    (forall upper lower,
        calculate_bollinger_bands values period multiplier = Ok (upper, lower) ->
        length upper = length values /\
        length lower = length values /\
        forall k, (k < length values)%nat ->
          let mean := item sma k in
          let variance :=
            (py_sum (map (fun x => ((x - mean) * (x - mean))%py)
                         (Py.slice values (Z.of_nat k - period + 1) (Z.of_nat k + 1)))
             / of_int period)%py in
          nth_error upper k
          = Some (if (Z.of_nat k <? period - 1)%Z then (item values k + of_int 10)%py
                  else (mean + multiplier * fsqrt variance)%py) /\
          nth_error lower k
          = Some (if (Z.of_nat k <? period - 1)%Z then (item values k - of_int 10)%py
                  else (mean - multiplier * fsqrt variance)%py)).
Proof.
  intros Hp.
  destruct (calculate_sma_entries values Hp) as (sma & Hsma & Hlen & Hentries).
  exists sma. split; [exact Hsma|]. split; [exact Hlen|].
  pose (variance := fun i : Z =>
    (py_sum (map (fun x => ((x - item sma (Z.to_nat i))
                            * (x - item sma (Z.to_nat i)))%py)
                 (Py.slice values (i - period + 1) (i + 1)))
     / of_int period)%py).
  set (gu := fun i : Z =>
    if (i <? period - 1)%Z then (item values (Z.to_nat i) + of_int 10)%py
    else (item sma (Z.to_nat i) + multiplier * fsqrt (variance i))%py).
  set (gl := fun i : Z =>
    if (i <? period - 1)%Z then (item values (Z.to_nat i) - of_int 10)%py
    else (item sma (Z.to_nat i) - multiplier * fsqrt (variance i))%py).
  split.
  - intros Hsq. exists (map gu (Py.range (length values))),
      (map gl (Py.range (length values))).
    unfold calculate_bollinger_bands. rewrite Hsma. cbn [bind].
    rewrite for_each_snoc2 with (gu := gu) (gl := gl); [reflexivity|].
    intros u lo i Hin. apply in_range in Hin as (k & Hk & ->).
    unfold gu, gl, variance. rewrite Nat2Z.id.
    destruct (Z.ltb_spec (Z.of_nat k) (period - 1)) as [Hlt | Hge].
    + rewrite (index_nat values (of_int 0) Hk). reflexivity.
    + rewrite (index_nat sma (of_int 0)) by (rewrite Hlen; exact Hk).
      cbn [bind]. fold (item sma k).
      rewrite squares_loop_returns by (intros x Hx; now apply (Hsq k x)).
      cbn [bind app]. unfold truediv.
      replace (period =? 0)%Z with false by (symmetry; now apply Z.eqb_neq).
      reflexivity.
  - intros upper lower Hbb.
    unfold calculate_bollinger_bands in Hbb. rewrite Hsma in Hbb. cbn [bind] in Hbb.
    apply for_each_snoc2_inv with (gu := gu) (gl := gl) in Hbb.
    + destruct Hbb as [-> ->]. simpl app.
      split; [now rewrite length_map, range_length|].
      split; [now rewrite length_map, range_length|].
      intros k Hk. cbv zeta.
      rewrite !nth_error_map_range by exact Hk.
      unfold gu, gl, variance. now rewrite Nat2Z.id.
    + intros u lo i r Hin Hr. apply in_range in Hin as (k & Hk & ->).
      unfold gu, gl, variance. rewrite Nat2Z.id.
      destruct (Z.ltb_spec (Z.of_nat k) (period - 1)) as [Hlt | Hge].
      * rewrite (index_nat values (of_int 0) Hk) in Hr. cbn [bind] in Hr.
        now injection Hr as <-.
      * rewrite (index_nat sma (of_int 0)) in Hr by (rewrite Hlen; exact Hk).
        cbn [bind] in Hr. fold (item sma k) in Hr.
        match type of Hr with
        | context [for_each ?b ?l []] =>
            destruct (for_each b l []) as [squares|e] eqn:Esq
        end; cbn [bind] in Hr; [|discriminate].
        apply squares_loop_value in Esq. simpl app in Esq. subst squares.
        unfold truediv in Hr.
        replace (period =? 0)%Z with false in Hr
          by (symmetry; now apply Z.eqb_neq).
        cbn [bind] in Hr. now injection Hr as <-.
Qed.

(** The slice the steady-state branches take is the trailing window. *)
Lemma slice_trailing_window (values : list F) (period : Z) (k : nat) :
  (1 <= period)%Z -> (period - 1 <= Z.of_nat k)%Z -> (k < length values)%nat ->
  Py.slice values (Z.of_nat k - period + 1) (Z.of_nat k + 1)
  = trailing_window values (Z.of_nat k) period.
Proof.
  intros Hp Hsteady Hk.
  rewrite (slice_inside values (of_int 0)) by (unfold Py.len; lia).
  unfold trailing_window, run, item. do 3 f_equal. lia.
Qed.

Lemma trailing_window_len (values : list F) (i period : Z) :
  (0 <= period)%Z -> Py.len (trailing_window values i period) = period.
Proof.
  intros Hp. unfold Py.len, trailing_window, run.
  rewrite length_map, length_seq. lia.
Qed.

End EngineLemmas.

(** ** Simple moving average *)

(** C3. For every value sequence and every period of at least one,
    [calculate_sma] returns a sequence as long as its input; before index
    [period - 1] an entry is the input value at that index, and from there
    on it is the arithmetic mean of the trailing window
    [values[i-period+1 .. i]]. *)
Theorem calculate_sma_contract
        (F : Type) (num : PyFloat F) (values : list F) (period : Z) :
  (1 <= period)%Z ->
  exists sma,
    calculate_sma values period = Ok sma /\
    length sma = length values /\
    (forall k, (k < length values)%nat -> (Z.of_nat k < period - 1)%Z ->
               nth_error sma k = nth_error values k) /\
    (forall k, (k < length values)%nat -> (period - 1 <= Z.of_nat k)%Z ->
               nth_error sma k
               = Some (mean (trailing_window values (Z.of_nat k) period))).
Proof.
  intros Hp.
  destruct (@calculate_sma_entries F num values period) as (sma & Hsma & Hlen & Hent);
    [lia|].
  exists sma. repeat split; try assumption.
  - intros k Hk Hwarm. rewrite Hent by exact Hk.
    replace (Z.of_nat k <? period - 1)%Z with true
      by (symmetry; apply Z.ltb_lt; lia).
    unfold item. symmetry. now apply nth_error_nth'.
  - intros k Hk Hsteady. rewrite Hent by exact Hk.
    replace (Z.of_nat k <? period - 1)%Z with false
      by (symmetry; apply Z.ltb_ge; lia).
    rewrite slice_trailing_window by assumption.
    unfold mean. rewrite trailing_window_len by lia. reflexivity.
Qed.

(** The contract at the binary64 input [1, 2, 3, 4, 5] with period 3. *)
Lemma calculate_sma_contract_witness :
  exists sma,
    calculate_sma [1; 2; 3; 4; 5]%float 3 = Ok sma /\
    length sma = 5%nat /\
    (forall k, (k < 5)%nat -> (Z.of_nat k < 3 - 1)%Z ->
               nth_error sma k = nth_error [1; 2; 3; 4; 5]%float k) /\
    (forall k, (k < 5)%nat -> (3 - 1 <= Z.of_nat k)%Z ->
               nth_error sma k
               = Some (mean (trailing_window [1; 2; 3; 4; 5]%float (Z.of_nat k) 3))).
Proof.
  apply (@calculate_sma_contract float PyFloat_binary64 [1; 2; 3; 4; 5]%float 3).
  lia.
Defined.

(** ** Bollinger bands *)

(** The shape of the bands, for every number type: the call returns as
    soon as no squared deviation is out of range, and what it returns is
    the specification's formula at every index. *)
Lemma bollinger_structure
      (F : Type) (num : PyFloat F) (values : list F) (period : Z) (multiplier : F) :
  (1 <= period)%Z ->
  exists sma,
    calculate_sma values period = Ok sma /\
    length sma = length values /\
    ((forall k x, (k < length values)%nat -> (period - 1 <= Z.of_nat k)%Z ->
                  In x (trailing_window values (Z.of_nat k) period) ->
                  exists y, square (x - item sma k)%py = Ok y) ->
     exists upper lower,
       calculate_bollinger_bands values period multiplier = Ok (upper, lower)) /\
    (forall upper lower,
        calculate_bollinger_bands values period multiplier = Ok (upper, lower) ->
        length upper = length values /\
        length lower = length values /\
        (forall k, (k < length values)%nat -> (Z.of_nat k < period - 1)%Z ->
           nth_error upper k = Some (item values k + of_int 10)%py /\
           nth_error lower k = Some (item values k - of_int 10)%py) /\
        (forall k, (k < length values)%nat -> (period - 1 <= Z.of_nat k)%Z ->
           let mean := item sma k in
           let variance :=
             population_variance (trailing_window values (Z.of_nat k) period) mean in
           let stdDev := fsqrt variance in
           nth_error upper k = Some (mean + multiplier * stdDev)%py /\
           nth_error lower k = Some (mean - multiplier * stdDev)%py)).
Proof.
  intros Hp.
  destruct (@calculate_bollinger_bands_entries F num values period multiplier)
    as (sma & Hsma & Hlen & Hret & Hshape); [lia|].
  exists sma. split; [exact Hsma|]. split; [exact Hlen|]. split.
  - intros Hsq. apply Hret. intros k x Hk Hge Hx.
    apply (Hsq k x Hk Hge). now rewrite <- slice_trailing_window.
  - intros upper lower Hbb.
    destruct (Hshape upper lower Hbb) as (Hu & Hl & Hent).
    split; [exact Hu|]. split; [exact Hl|]. split.
    + intros k Hk Hlt. destruct (Hent k Hk) as [Eu El]. rewrite Eu, El.
      now replace (Z.of_nat k <? period - 1)%Z with true
        by (symmetry; apply Z.ltb_lt; lia).
    + intros k Hk Hge. cbv zeta. destruct (Hent k Hk) as [Eu El]. rewrite Eu, El.
      replace (Z.of_nat k <? period - 1)%Z with false
        by (symmetry; apply Z.ltb_ge; lia).
      rewrite slice_trailing_window by assumption.
      unfold population_variance. now rewrite trailing_window_len by lia.
Qed.




(** *** In exact arithmetic *)

Section BollingerReal.

Local Open Scope R_scope.
Local Abbreviation sqrt := R_sqrt.sqrt.

(** In exact arithmetic no square is out of range, so the bands are always
    returned. *)
Lemma bollinger_structure_real (values : list R) (period : Z) (multiplier : R) :
  (1 <= period)%Z ->
  exists sma upper lower,
    calculate_sma values period = Ok sma /\
    calculate_bollinger_bands values period multiplier = Ok (upper, lower) /\
    length upper = length values /\
    length lower = length values /\
    (forall k, (k < length values)%nat -> (Z.of_nat k < period - 1)%Z ->
       nth_error upper k = Some (item values k + 10) /\
       nth_error lower k = Some (item values k - 10)) /\
    (forall k, (k < length values)%nat -> (period - 1 <= Z.of_nat k)%Z ->
       let mean := item sma k in
       let variance :=
         population_variance (trailing_window values (Z.of_nat k) period) mean in
       let stdDev := sqrt variance in
       nth_error upper k = Some (mean + multiplier * stdDev) /\
       nth_error lower k = Some (mean - multiplier * stdDev)).
Proof.
  intros Hp.
  destruct (@bollinger_structure R PyFloat_R values period multiplier Hp)
    as (sma & Hsma & _ & Hret & Hshape).
  destruct Hret as (upper & lower & Hbb).
  { intros k x _ _ _. eexists. reflexivity. }
  destruct (Hshape upper lower Hbb) as (Hu & Hl & Hwarm & Hsteady).
  exists sma, upper, lower. repeat split; try assumption.
  - now apply Hwarm.
  - now apply Hwarm.
  - now apply Hsteady.
  - now apply Hsteady.
Qed.





End BollingerReal.

(** ** Relative strength index, in exact arithmetic *)

Section RsiReal.

Local Open Scope R_scope.

Lemma where_gain (d : R) : (if Rltb 0 d then d else 0) = Rmax d 0.
Proof.
  unfold Rltb, Rmax. destruct (Rlt_dec 0 d), (Rle_dec d 0); lra.
Qed.

Lemma where_loss (d : R) : (if Rltb d 0 then - d else 0) = Rmax (- d) 0.
Proof.
  unfold Rltb, Rmax. destruct (Rlt_dec d 0), (Rle_dec (- d) 0); lra.
Qed.

Lemma gains_nth (prices : list R) (k : nat) :
  (S k < length prices)%nat ->
  nth k (gains_of (np_diff prices)) 0 = RsiSpec.gain prices k.
Proof.
  intros Hk. unfold gains_of, RsiSpec.gain, RsiSpec.delta.
  rewrite (nth_indep _ 0 ((fun d : R => if Rltb 0 d then d else 0) 0))
    by (rewrite length_map, np_diff_length; lia).
  rewrite (map_nth (fun d : R => if Rltb 0 d then d else 0)).
  rewrite where_gain. now rewrite (np_diff_nth prices 0 0 Hk).
Qed.

Lemma losses_nth (prices : list R) (k : nat) :
  (S k < length prices)%nat ->
  nth k (losses_of (np_diff prices)) 0 = RsiSpec.loss prices k.
Proof.
  intros Hk. unfold losses_of, RsiSpec.loss, RsiSpec.delta.
  rewrite (nth_indep _ 0 ((fun d : R => if Rltb d 0 then - d else 0) 0))
    by (rewrite length_map, np_diff_length; lia).
  rewrite (map_nth (fun d : R => if Rltb d 0 then - d else 0)).
  rewrite where_loss. now rewrite (np_diff_nth prices 0 0 Hk).
Qed.

(** With a period of at least one, the slice of a per-delta list that the
    loop averages is the run of the specification's entries over
    [i-period .. i-1]. *)
Lemma rsi_slice_run (xs : list R) (f : nat -> R) (n : nat) (period : Z) (k : nat) :
  length xs = (n - 1)%nat ->
  (forall j, (S j < n)%nat -> nth j xs 0 = f j) ->
  (1 <= period)%Z -> (k < n)%nat -> (period <= Z.of_nat k)%Z ->
  Py.slice xs (Z.max 0 (Z.of_nat k - period)) (Z.of_nat k)
  = run f (Z.of_nat k - period) period.
Proof.
  intros Hlen Hnth Hp Hk Hsteady.
  rewrite Z.max_r by lia.
  rewrite (slice_inside xs 0) by (unfold Py.len; lia).
  unfold run. replace (Z.of_nat k - (Z.of_nat k - period))%Z with period by lia.
  apply map_ext_in. intros j Hj. apply in_seq in Hj. apply Hnth. lia.
Qed.

Lemma rsi_step_spec (prices : list R) (period : Z) (k : nat) :
  (1 <= period)%Z -> (k < length prices)%nat -> (period <= Z.of_nat k)%Z ->
  rsi_step (gains_of (np_diff prices)) (losses_of (np_diff prices))
           period (Z.of_nat k)
  = RsiSpec.steady prices period (Z.of_nat k).
Proof.
  intros Hp Hk Hsteady. unfold rsi_step, RsiSpec.steady.
  rewrite (@rsi_slice_run (gains_of (np_diff prices)) (RsiSpec.gain prices)
             (length prices) period k); try assumption;
    [| unfold gains_of; now rewrite length_map, np_diff_length
     | intros j Hj; now apply gains_nth ].
  rewrite (@rsi_slice_run (losses_of (np_diff prices)) (RsiSpec.loss prices)
             (length prices) period k); try assumption;
    [| unfold losses_of; now rewrite length_map, np_diff_length
     | intros j Hj; now apply losses_nth ].
  cbv zeta. change (@np_mean R PyFloat_R) with (@mean R PyFloat_R).
  cbn [feq fsub fadd fdiv of_int PyFloat_R]. unfold Reqb.
  now destruct (Req_dec_T _ 0).
Qed.

(** Sums and means of entries that are not negative. *)
Lemma fold_left_Rplus_ge (xs : list R) (a : R) :
  Forall (fun x => 0 <= x) xs -> a <= fold_left Rplus xs a.
Proof.
  intros Hxs. revert a. induction Hxs as [|x xs Hx _ IH]; intros a; simpl.
  - lra.
  - specialize (IH (a + x)). lra.
Qed.

Lemma fold_left_Rplus_zero (xs : list R) (a : R) :
  Forall (fun x => x = 0) xs -> fold_left Rplus xs a = a.
Proof.
  intros Hxs. revert a. induction Hxs as [|x xs Hx _ IH]; intros a; simpl.
  - reflexivity.
  - rewrite IH. lra.
Qed.

Lemma mean_nonneg (xs : list R) :
  xs <> [] -> Forall (fun x => 0 <= x) xs -> 0 <= mean xs.
Proof.
  intros Hne Hxs. unfold mean, py_sum. cbn [fdiv fadd of_int PyFloat_R].
  pose proof (fold_left_Rplus_ge 0 Hxs) as Hsum.
  assert (Hlen : 0 < IZR (Py.len xs)).
  { apply IZR_lt. unfold Py.len. destruct xs; [congruence | simpl; lia]. }
  apply Rmult_le_pos; [exact Hsum|].
  apply Rlt_le, Rinv_0_lt_compat, Hlen.
Qed.

Lemma mean_zero (xs : list R) : Forall (fun x => x = 0) xs -> mean xs = 0.
Proof.
  intros Hxs. unfold mean, py_sum. cbn [fdiv fadd of_int PyFloat_R].
  rewrite (fold_left_Rplus_zero 0 Hxs). unfold Rdiv. apply Rmult_0_l.
Qed.

Lemma run_nonempty (f : nat -> R) (lo count : Z) :
  (1 <= count)%Z -> run f lo count <> [].
Proof.
  intros Hc E. apply (f_equal (@length R)) in E. unfold run in E.
  rewrite length_map, length_seq in E. simpl in E. lia.
Qed.

Lemma run_Forall (P : R -> Prop) (f : nat -> R) (lo count : Z) :
  (forall j, (Z.to_nat lo <= j < Z.to_nat lo + Z.to_nat count)%nat -> P (f j)) ->
  Forall P (run f lo count).
Proof.
  intros Hf. unfold run. apply Forall_forall. intros x Hx.
  apply in_map_iff in Hx as (j & <- & Hj). apply in_seq in Hj. now apply Hf.
Qed.

(** The steady-state value lies between 0 and 100. *)
Lemma steady_range (prices : list R) (period i : Z) :
  (1 <= period)%Z -> 0 <= RsiSpec.steady prices period i <= 100.
Proof.
  intros Hp. unfold RsiSpec.steady. cbv zeta.
  set (avgGain := mean (run (RsiSpec.gain prices) (i - period) period)).
  set (avgLoss := mean (run (RsiSpec.loss prices) (i - period) period)).
  assert (Hg : 0 <= avgGain).
  { apply mean_nonneg; [now apply run_nonempty|].
    apply run_Forall. intros j _. apply Rmax_r. }
  assert (Hl : 0 <= avgLoss).
  { apply mean_nonneg; [now apply run_nonempty|].
    apply run_Forall. intros j _. apply Rmax_r. }
  destruct (Req_dec_T avgLoss 0) as [_ | Hne]; [lra|].
  assert (Hrs : 0 <= avgGain / avgLoss).
  { apply Rmult_le_pos; [exact Hg|]. apply Rlt_le, Rinv_0_lt_compat. lra. }
  assert (Hinv : 0 < / (1 + avgGain / avgLoss) <= 1).
  { split; [apply Rinv_0_lt_compat; lra|].
    apply Rle_trans with (/ 1); [apply Rinv_le_contravar; lra|].
    rewrite Rinv_1. lra. }
  unfold Rdiv in *.
  set (t := / (1 + avgGain * / avgLoss)) in *. lra.
Qed.

(** In exact arithmetic every entry lies between 0 and 100. *)
Lemma rsi_in_range (prices : list R) (period : Z) :
  (1 <= period)%Z ->
  Forall (fun v => 0 <= v <= 100) (calculate_rsi prices period).
Proof.
  intros Hp. apply Forall_forall. intros v Hin.
  apply In_nth_error in Hin as (k & Hk).
  assert (Hlt : (k < length prices)%nat).
  { rewrite <- (calculate_rsi_length prices period).
    apply nth_error_Some. congruence. }
  destruct (Z_lt_le_dec (Z.of_nat k) period) as [Hwarm | Hsteady].
  - rewrite calculate_rsi_warmup in Hk by assumption.
    injection Hk as <-. cbn [of_int PyFloat_R]. lra.
  - rewrite calculate_rsi_steady, rsi_step_spec in Hk by assumption.
    injection Hk as <-. now apply steady_range.
Qed.

End RsiReal.

Section RsiClaims.

Local Open Scope R_scope.

Lemma loss_flat (c : R) (n j : nat) :
  (S j < n)%nat -> RsiSpec.loss (repeat c n) j = 0.
Proof.
  intros Hj. unfold RsiSpec.loss, RsiSpec.delta.
  rewrite !(nth_indep (repeat c n) 0 c) by (rewrite repeat_length; lia).
  rewrite !nth_repeat. replace (- (c - c)) with 0 by lra.
  unfold Rmax. destruct (Rle_dec 0 0); lra.
Qed.

Lemma steady_flat (c : R) : RsiSpec.steady (repeat c 15) 14 14 = 100.
Proof.
  unfold RsiSpec.steady. cbv zeta.
  match goal with |- context [Req_dec_T ?a 0] =>
    destruct (Req_dec_T a 0) as [_ | Hne]; [reflexivity|]; exfalso; apply Hne
  end.
  apply mean_zero, run_Forall. intros j Hj. apply loss_flat. lia.
Qed.

Lemma calculate_rsi_flat (c : R) :
  calculate_rsi (repeat c 15) 14 = repeat 50 14 ++ [100].
Proof.
  apply nth_error_ext. intros k.
  destruct (Nat.lt_ge_cases k 14) as [Hwarm | Hge].
  - rewrite calculate_rsi_warmup by (rewrite ?repeat_length; lia).
    rewrite nth_error_app1 by (rewrite repeat_length; lia).
    symmetry. now apply nth_error_repeat.
  - destruct (Nat.eq_dec k 14) as [-> | Hne].
    + rewrite calculate_rsi_steady by (rewrite ?repeat_length; simpl; lia).
      rewrite rsi_step_spec by (rewrite ?repeat_length; simpl; lia).
      change (Z.of_nat 14) with 14%Z. rewrite steady_flat. reflexivity.
    + transitivity (@None R).
      * apply nth_error_None. rewrite calculate_rsi_length, repeat_length. lia.
      * symmetry. apply nth_error_None.
        rewrite length_app, repeat_length. simpl. lia.
Qed.

(** C1. For every price sequence and period: an entry before index
    [period] is 50 (so an input of fewer than [period + 1] prices yields
    50 throughout, at the input's length); with a period of at least one,
    so that the window is not empty, an entry at an index [i >= period] is
    100 when the mean loss over the deltas [i-period .. i-1] is zero, and
    otherwise [100 - 100 / (1 + avgGain / avgLoss)] with the plain means of
    [max(delta, 0)] and [max(-delta, 0)] over those deltas; fifteen equal
    closes give fourteen times 50 followed by 100. *)
Theorem calculate_rsi_contract (prices : list R) (period : Z) :
  (forall k, (k < length prices)%nat -> (Z.of_nat k < period)%Z ->
             nth_error (calculate_rsi prices period) k = Some 50) /\
  ((Py.len prices < period + 1)%Z ->
   calculate_rsi prices period = repeat 50 (length prices)) /\
  ((1 <= period)%Z ->
   forall k, (k < length prices)%nat -> (period <= Z.of_nat k)%Z ->
             nth_error (calculate_rsi prices period) k
             = Some (RsiSpec.steady prices period (Z.of_nat k))) /\
  (forall c : R, calculate_rsi (repeat c 15) 14 = repeat 50 14 ++ [100]).
Proof.
  split; [|split; [|split]].
  - intros k Hk Hwarm. exact (@calculate_rsi_warmup R PyFloat_R prices period k Hk Hwarm).
  - intros Hshort. exact (@calculate_rsi_short R PyFloat_R prices period Hshort).
  - intros Hp k Hk Hsteady.
    rewrite calculate_rsi_steady by assumption.
    now rewrite rsi_step_spec.
  - exact calculate_rsi_flat.
Qed.

(** The contract at the prices [10, 11, 9, 12] with period 2: index 1 is
    in the warm-up, index 3 is in the steady state. *)
Lemma calculate_rsi_contract_witness :
  nth_error (calculate_rsi [10; 11; 9; 12] 2) 1 = Some 50 /\
  nth_error (calculate_rsi [10; 11; 9; 12] 2) 3
  = Some (RsiSpec.steady [10; 11; 9; 12] 2 3).
Proof.
  destruct (calculate_rsi_contract [10; 11; 9; 12] 2)
    as (Hwarm & _ & Hsteady & _).
  split.
  - apply (Hwarm 1%nat); simpl; lia.
  - apply (Hsteady ltac:(lia) 3%nat); simpl; lia.
Defined.

(** C2, as the specification has it, fails: on the finite binary64 prices
    2^1023, -2^1023, 2^1023 with period 2 both deltas overflow, the mean
    gain and the mean loss at index 2 are both infinite, and the value
    there is NaN, which is neither at least 0 nor at most 100. *)
Lemma calculate_rsi_out_of_range :
  exists v,
    nth_error (calculate_rsi [0x1p+1023; -0x1p+1023; 0x1p+1023]%float 2) 2 = Some v /\
    PrimFloat.leb 0 v = false /\ PrimFloat.leb v 100 = false.
Proof. exists nan. repeat split; vm_compute; reflexivity. Qed.

(** C2, amended.  For every sequence of prices of magnitude at most 10^300
    and every period from 1 to 10^6 (sizes at which no delta and no window
    sum overflows, see [rsi_sums_in_range], so that the numbers are read
    as exact reals), the output is as long as the input and each of its
    values lies in the closed interval from 0 to 100. *)
Theorem calculate_rsi_range (prices : list R) (period : Z) :
  (1 <= period <= period_bound)%Z ->
  Forall (fun p => Rabs p <= price_bound) prices ->
  length (calculate_rsi prices period) = length prices /\
  Forall (fun v => 0 <= v <= 100) (calculate_rsi prices period).
Proof.
  intros [Hp _] _. split; [apply calculate_rsi_length|].
  now apply rsi_in_range.
Qed.

Lemma price_bound_large : 1000 <= price_bound.
Proof.
  unfold price_bound. apply IZR_le. apply Z.leb_le. vm_compute. reflexivity.
Qed.

(** The amended range at the prices [10, 11, 9, 12] with period 2, where
    indices 2 and 3 are in the steady state. *)
Lemma calculate_rsi_range_witness :
  length (calculate_rsi [10; 11; 9; 12] 2) = 4%nat /\
  Forall (fun v => 0 <= v <= 100) (calculate_rsi [10; 11; 9; 12] 2).
Proof.
  apply (@calculate_rsi_range [10; 11; 9; 12] 2);
    [unfold period_bound; lia |].
  pose proof price_bound_large as Hb.
  repeat (apply Forall_cons; [apply Rabs_le; lra|]). apply Forall_nil.
Defined.

(** The same input run in binary64: every value is within the interval,
    and the last one is 60. *)
Example calculate_rsi_steady_run :
  map (fun v => PrimFloat.leb 0 v && PrimFloat.leb v 100)
      (calculate_rsi [10; 11; 9; 12]%float 2) = [true; true; true; true] /\
  nth_error (calculate_rsi [10; 11; 9; 12]%float 2) 3 = Some 60%float.
Proof. split; vm_compute; reflexivity. Qed.

End RsiClaims.

(** ** ChartAssembler *)

Section EnumerateLemmas.

Context {A : Type}.

Lemma nth_error_combine_seq {B : Type} (g : Z * A -> B) (l : list A) (start k : nat) :
  nth_error (map g (combine (map Z.of_nat (seq start (length l))) l)) k
  = option_map (fun c => g (Z.of_nat (start + k), c)) (nth_error l k).
Proof.
  revert start k. induction l as [|x l IH]; intros start k.
  - now destruct k.
  - destruct k as [|k]; simpl.
    + now rewrite Nat.add_0_r.
    + rewrite IH. now rewrite Nat.add_succ_comm.
Qed.

Lemma nth_error_map_enumerate {B : Type} (g : Z * A -> B) (l : list A) (k : nat) :
  nth_error (map g (Py.enumerate l)) k
  = option_map (fun c => g (Z.of_nat k, c)) (nth_error l k).
Proof. unfold Py.enumerate, Py.range. apply nth_error_combine_seq. Qed.

Lemma in_enumerate (l : list A) (i : Z) (c : A) :
  In (i, c) (Py.enumerate l) ->
  exists k, i = Z.of_nat k /\ nth_error l k = Some c.
Proof.
  intros Hin. apply In_nth_error in Hin as (k & Hk).
  rewrite <- (map_id (Py.enumerate l)) in Hk.
  rewrite (nth_error_map_enumerate (fun p : Z * A => p)) in Hk.
  exists k. destruct (nth_error l k) as [c'|]; simpl in Hk; [|discriminate].
  injection Hk as <- <-. now split.
Qed.

Lemma enumerate_length (l : list A) : length (Py.enumerate l) = length l.
Proof.
  unfold Py.enumerate. rewrite length_combine, range_length. apply Nat.min_id.
Qed.

(** A loop that converts and appends yields one entry per step. *)
Lemma for_each_convert_length {B : Type} (f : A -> result B) (l : list A) :
  forall acc r,
    for_each (fun x acc => y <- f x ;; Ok (acc ++ [y])) l acc = Ok r ->
    length r = (length acc + length l)%nat.
Proof.
  induction l as [|x l IH]; intros acc r Hr; simpl in Hr.
  - injection Hr as <-. simpl. lia.
  - destruct (f x) as [y|e]; simpl in Hr; [|discriminate].
    apply IH in Hr. rewrite Hr, length_app. simpl. lia.
Qed.

End EnumerateLemmas.

Section ChartLemmas.

Context {F : Type} `{PyFloat F}.
Variable history : string -> string -> string -> result (list (Row F)).

(** Once the rows are converted and the bands of the oscillator are
    returned, the rest of the [try] block succeeds and the overlay is
    aligned with the candles. *)
Lemma chart_body_aligned (symbol timeframe : string) (hist : list (Row F))
      (candles : list (Candle.t F)) (rsi_upper_bb rsi_lower_bb : list F) :
  history (format_symbol_for_yahoo symbol)
          (snd (get_timeframe_period timeframe))
          (fst (get_timeframe_period timeframe)) = Ok hist ->
  hist <> [] ->
  for_each (fun row candles => c <- candle_of_row row ;; Ok (candles ++ [c]))
           hist [] = Ok candles ->
  let rsi_values := calculate_rsi (map (@Candle.close F) candles) 14 in
  calculate_bollinger_bands rsi_values 20 (of_int 2)
  = Ok (rsi_upper_bb, rsi_lower_bb) ->
  exists rsi_ma rsi_data,
    calculate_sma rsi_values 9 = Ok rsi_ma /\
    fetch_chart_data history symbol timeframe
    = Some {| candles := candles; rsi := rsi_data |} /\
    length rsi_data = length candles /\
    forall k c, nth_error candles k = Some c ->
      exists v m u l,
        nth_error rsi_values k = Some v /\
        nth_error rsi_ma k = Some m /\
        nth_error rsi_upper_bb k = Some u /\
        nth_error rsi_lower_bb k = Some l /\
        nth_error rsi_data k = Some (RsiPoint.mk (Candle.timestamp c) v m u l).
Proof.
  intros Hhist Hne Hcandles rsi_values Hbb.
  assert (Hrsi_len : length rsi_values = length candles).
  { unfold rsi_values. now rewrite calculate_rsi_length, length_map. }
  destruct (@calculate_bollinger_bands_entries F _ rsi_values 20 (of_int 2))
    as (sma20 & _ & _ & _ & Hshape); [lia|].
  destruct (Hshape rsi_upper_bb rsi_lower_bb Hbb) as (Hu & Hl & _).
  destruct (@calculate_sma_entries F _ rsi_values 9)
    as (rsi_ma & Hsma & Hma & _); [lia|].
  set (point := fun p : Z * Candle.t F =>
         RsiPoint.mk (Candle.timestamp (snd p))
                     (nth (Z.to_nat (fst p)) rsi_values (of_int 0))
                     (nth (Z.to_nat (fst p)) rsi_ma (of_int 0))
                     (nth (Z.to_nat (fst p)) rsi_upper_bb (of_int 0))
                     (nth (Z.to_nat (fst p)) rsi_lower_bb (of_int 0))).
  exists rsi_ma, (map point (Py.enumerate candles)).
  split; [exact Hsma|]. split; [|split].
  - unfold fetch_chart_data, chart_body.
    destruct (get_timeframe_period timeframe) as [interval period].
    simpl in Hhist. rewrite Hhist. simpl bind.
    destruct hist as [|row hist']; [congruence|].
    rewrite Hcandles. simpl bind. fold rsi_values.
    rewrite Hsma. simpl bind. rewrite Hbb. simpl bind.
    rewrite for_each_snoc with (g := point); [reflexivity|].
    intros acc [i candle] Hin. apply in_enumerate in Hin as (k & -> & Hk).
    assert (Hlt : (k < length candles)%nat)
      by (apply nth_error_Some; congruence).
    rewrite (index_nat rsi_values (of_int 0)) by lia. simpl bind.
    rewrite (index_nat rsi_ma (of_int 0)) by lia. simpl bind.
    rewrite (index_nat rsi_upper_bb (of_int 0)) by lia. simpl bind.
    rewrite (index_nat rsi_lower_bb (of_int 0)) by lia. simpl bind.
    unfold point. simpl fst. simpl snd. now rewrite Nat2Z.id.
  - now rewrite length_map, enumerate_length.
  - intros k c Hk.
    assert (Hlt : (k < length candles)%nat)
      by (apply nth_error_Some; congruence).
    exists (nth k rsi_values (of_int 0)), (nth k rsi_ma (of_int 0)),
      (nth k rsi_upper_bb (of_int 0)), (nth k rsi_lower_bb (of_int 0)).
    repeat split; try (apply nth_error_nth'; lia).
    rewrite nth_error_map_enumerate, Hk. simpl. unfold point. simpl.
    now rewrite Nat2Z.id.
Qed.

(** The paths on which the [try] block ends without a payload: the
    collaborator raises or returns no bars, a row does not convert, or the
    bands of the oscillator are not returned. *)
Lemma fetch_chart_data_none (symbol timeframe : string) :
  let bars := history (format_symbol_for_yahoo symbol)
                      (snd (get_timeframe_period timeframe))
                      (fst (get_timeframe_period timeframe)) in
  let convert :=
    for_each (fun row candles => c <- candle_of_row row ;; Ok (candles ++ [c])) in
  (forall e, bars = Raise e -> fetch_chart_data history symbol timeframe = None) /\
  (bars = Ok [] -> fetch_chart_data history symbol timeframe = None) /\
  (forall hist e, bars = Ok hist -> convert hist [] = Raise e ->
                  fetch_chart_data history symbol timeframe = None) /\
  (forall hist cs e, bars = Ok hist -> convert hist [] = Ok cs ->
     calculate_bollinger_bands (calculate_rsi (map (@Candle.close F) cs) 14)
                               20 (of_int 2) = Raise e ->
     fetch_chart_data history symbol timeframe = None).
Proof.
  cbv zeta. unfold fetch_chart_data, chart_body.
  destruct (get_timeframe_period timeframe) as [interval period]. simpl fst. simpl snd.
  split; [|split; [|split]].
  - intros e ->. reflexivity.
  - intros ->. reflexivity.
  - intros hist e -> Hconv. simpl bind.
    destruct hist as [|row hist]; [reflexivity|]. now rewrite Hconv.
  - intros hist cs e -> Hconv Hbb. simpl bind.
    destruct hist as [|row hist]; [reflexivity|]. rewrite Hconv. simpl bind.
    destruct (@calculate_sma_entries F _ (calculate_rsi (map (@Candle.close F) cs) 14) 9)
      as (rsi_ma & Hsma & _); [lia|].
    rewrite Hsma. simpl bind. now rewrite Hbb.
Qed.

(** C6. For every symbol and timeframe: when the collaborator returns no
    bars the result is [None] (not-found), never a payload without
    candles; and when the collaborator raises, whatever the exception, it
    does not reach the caller and the result is [None] as well. *)
Theorem fetch_chart_data_not_found (symbol timeframe : string) :
  let bars := history (format_symbol_for_yahoo symbol)
                      (snd (get_timeframe_period timeframe))
                      (fst (get_timeframe_period timeframe)) in
  (bars = Ok [] -> fetch_chart_data history symbol timeframe = None) /\
  (forall e, bars = Raise e -> fetch_chart_data history symbol timeframe = None) /\
  (forall payload, fetch_chart_data history symbol timeframe = Some payload ->
                   candles payload <> []).
Proof.
  cbv zeta. unfold fetch_chart_data, chart_body.
  destruct (get_timeframe_period timeframe) as [interval period]. simpl fst. simpl snd.
  split; [|split].
  - intros ->. reflexivity.
  - intros e ->. reflexivity.
  - intros payload.
    destruct (history (format_symbol_for_yahoo symbol) period interval)
      as [[|row hist]|e]; cbv beta iota delta [bind]; try discriminate.
    match goal with |- context [for_each ?b (row :: hist) []] =>
      destruct (for_each b (row :: hist) []) as [cs|e] eqn:Ecs
    end; try discriminate.
    apply for_each_convert_length in Ecs.
    destruct (calculate_sma _ 9) as [rsi_ma|e]; try discriminate.
    destruct (calculate_bollinger_bands _ 20 _) as [[up lo]|e]; try discriminate.
    match goal with |- context [for_each ?b (Py.enumerate cs) []] =>
      destruct (for_each b (Py.enumerate cs) []) as [rsi_data|e]
    end; try discriminate.
    intros [= <-]. simpl candles. destruct cs; [simpl in Ecs; lia | discriminate].
Qed.

End ChartLemmas.

Section ChartReal.

Local Open Scope R_scope.

Variable history : string -> string -> string -> result (list (Row R)).

(** In exact arithmetic [int()] never fails, so every row converts. *)
Lemma candles_of_rows (hist : list (Row R)) :
  exists cs,
    for_each (fun row candles => c <- candle_of_row row ;; Ok (candles ++ [c]))
             hist [] = Ok cs /\
    Forall2 (fun row c => candle_of_row row = Ok c) hist cs.
Proof.
  set (conv := fun row : Row R =>
         Candle.mk (Rtrunc (index_timestamp row * 1000)) (Open row) (High row)
                   (Low row) (Close row) (Rtrunc (Volume row))).
  exists (map conv hist). split.
  - now rewrite for_each_snoc with (g := conv).
  - induction hist as [|row rest IH]; simpl; constructor; [reflexivity | exact IH].
Qed.

(** In exact arithmetic the bands are always returned, so the block
    succeeds on every non-empty sequence of bars. *)
Lemma chart_body_aligned_real (symbol timeframe : string) (hist : list (Row R))
      (candles : list (Candle.t R)) :
  history (format_symbol_for_yahoo symbol)
          (snd (get_timeframe_period timeframe))
          (fst (get_timeframe_period timeframe)) = Ok hist ->
  hist <> [] ->
  for_each (fun row candles => c <- candle_of_row row ;; Ok (candles ++ [c]))
           hist [] = Ok candles ->
  let rsi_values := calculate_rsi (map (@Candle.close R) candles) 14 in
  exists rsi_ma rsi_upper_bb rsi_lower_bb rsi_data,
    calculate_sma rsi_values 9 = Ok rsi_ma /\
    calculate_bollinger_bands rsi_values 20 2 = Ok (rsi_upper_bb, rsi_lower_bb) /\
    fetch_chart_data history symbol timeframe
    = Some {| candles := candles; rsi := rsi_data |} /\
    length rsi_data = length candles /\
    forall k c, nth_error candles k = Some c ->
      exists v m u l,
        nth_error rsi_values k = Some v /\
        nth_error rsi_ma k = Some m /\
        nth_error rsi_upper_bb k = Some u /\
        nth_error rsi_lower_bb k = Some l /\
        nth_error rsi_data k = Some (RsiPoint.mk (Candle.timestamp c) v m u l).
Proof.
  intros Hhist Hne Hcandles rsi_values.
  destruct (@bollinger_structure_real rsi_values 20 2 ltac:(lia))
    as (_ & up & lo & _ & Hbb & _).
  destruct (@chart_body_aligned R PyFloat_R history symbol timeframe hist candles
              up lo Hhist Hne Hcandles Hbb)
    as (rsi_ma & rsi_data & Hsma & Hfetch & Hlen & Hpoints).
  exists rsi_ma, up, lo, rsi_data.
  split; [exact Hsma|]. split; [exact Hbb|]. split; [exact Hfetch|].
  split; [exact Hlen | exact Hpoints].
Qed.

(** C5. For every non-empty bar sequence the collaborator returns, a
    payload is assembled whose candles are the converted bars, whose
    overlay has as many points as there are candles, and whose point at
    each index carries that candle's timestamp together with the entries,
    at the same index, of the RSI of the closes (period 14), of the moving
    average of that RSI (period 9) and of the Bollinger bands of that RSI
    (period 20, multiplier 2). *)
Theorem fetch_chart_data_aligned (symbol timeframe : string) (hist : list (Row R)) :
  history (format_symbol_for_yahoo symbol)
          (snd (get_timeframe_period timeframe))
          (fst (get_timeframe_period timeframe)) = Ok hist ->
  hist <> [] ->
  exists payload rsi_ma rsi_upper_bb rsi_lower_bb,
    fetch_chart_data history symbol timeframe = Some payload /\
    Forall2 (fun row c => candle_of_row row = Ok c) hist (candles payload) /\
    length (rsi payload) = length (candles payload) /\
    let rsi_values :=
      calculate_rsi (map (@Candle.close R) (candles payload)) 14 in
    calculate_sma rsi_values 9 = Ok rsi_ma /\
    calculate_bollinger_bands rsi_values 20 2 = Ok (rsi_upper_bb, rsi_lower_bb) /\
    forall k c, nth_error (candles payload) k = Some c ->
      exists v m u l,
        nth_error rsi_values k = Some v /\
        nth_error rsi_ma k = Some m /\
        nth_error rsi_upper_bb k = Some u /\
        nth_error rsi_lower_bb k = Some l /\
        nth_error (rsi payload) k
        = Some (RsiPoint.mk (Candle.timestamp c) v m u l).
Proof.
  intros Hhist Hne.
  destruct (candles_of_rows hist) as (cs & Hcs & Hconv).
  destruct (@chart_body_aligned_real symbol timeframe hist cs
              Hhist Hne Hcs)
    as (rsi_ma & up & lo & rsi_data & Hsma & Hbb & Hfetch & Hlen & Hpoints).
  exists {| candles := cs; rsi := rsi_data |}, rsi_ma, up, lo.
  split; [exact Hfetch|]. split; [exact Hconv|]. split; [exact Hlen|].
  cbv zeta. split; [exact Hsma|]. split; [exact Hbb|]. exact Hpoints.
Qed.

End ChartReal.

(** The alignment for a collaborator that returns two bars. *)
Lemma fetch_chart_data_aligned_witness :
  let bars : list (Row R) :=
    [ {| index_timestamp := 1700000000; Open := 1; High := 3; Low := 1;
         Close := 2; Volume := 1000 |};
      {| index_timestamp := 1700086400; Open := 2; High := 4; Low := 2;
         Close := 3; Volume := 1200 |} ]%R in
  let history := fun _ _ _ : string => Ok bars in
  exists payload rsi_ma rsi_upper_bb rsi_lower_bb,
    fetch_chart_data history "TCS" "1d" = Some payload /\
    Forall2 (fun row c => candle_of_row row = Ok c) bars (candles payload) /\
    length (rsi payload) = length (candles payload) /\
    let rsi_values :=
      calculate_rsi (map (@Candle.close R) (candles payload)) 14 in
    calculate_sma rsi_values 9 = Ok rsi_ma /\
    calculate_bollinger_bands rsi_values 20 2%R = Ok (rsi_upper_bb, rsi_lower_bb) /\
    forall k c, nth_error (candles payload) k = Some c ->
      exists v m u l,
        nth_error rsi_values k = Some v /\
        nth_error rsi_ma k = Some m /\
        nth_error rsi_upper_bb k = Some u /\
        nth_error rsi_lower_bb k = Some l /\
        nth_error (rsi payload) k
        = Some (RsiPoint.mk (Candle.timestamp c) v m u l).
Proof.
  intros bars history.
  apply (@fetch_chart_data_aligned history "TCS" "1d" bars).
  - reflexivity.
  - discriminate.
Defined.

(** Both not-found paths, run in binary64. *)
Example fetch_chart_data_empty_run :
  fetch_chart_data (F := float) (fun _ _ _ => Ok []) "TCS" "1d" = None.
Proof. reflexivity. Qed.

Example fetch_chart_data_raise_run :
  fetch_chart_data (F := float)
                   (fun _ _ _ => Raise (OtherException "ConnectionError")) "TCS" "1d"
  = None.
Proof. reflexivity. Qed.

(* ================================================================== *)
(** * Part III: further properties of the code *)
(* ================================================================== *)

(** ** Dicts *)

Section DictLemmas.

Context {V : Type}.
Implicit Types (d : list (string * V)) (k : string) (v default : V).

Lemma dict_get_missing d k default :
  ~ In k (map fst d) -> dict_get d k default = default.
Proof.
  induction d as [|[k' v'] d IH]; intros Hk; simpl; [reflexivity|].
  destruct (String.eqb_spec k k') as [-> | _].
  - exfalso. apply Hk. now left.
  - apply IH. intros Hin. apply Hk. now right.
Qed.

Lemma dict_get_cases d k default :
  dict_get d k default = default \/ In (dict_get d k default) (map snd d).
Proof.
  induction d as [|[k' v'] d IH]; simpl; [now left|].
  destruct (String.eqb k k'); [right; now left|].
  destruct IH as [E | Hin]; [now left | right; now right].
Qed.

Lemma dict_get_set d k v default : dict_get (dict_set d k v) k default = v.
Proof.
  induction d as [|[k' v'] d IH]; simpl.
  - now rewrite String.eqb_refl.
  - destruct (String.eqb k k') eqn:E; simpl; rewrite E; [reflexivity | exact IH].
Qed.

Lemma dict_get_set_other d k k' v default :
  k' <> k -> dict_get (dict_set d k v) k' default = dict_get d k' default.
Proof.
  intros Hne. induction d as [|[k0 v0] d IH]; simpl.
  - now replace (String.eqb k' k) with false by (symmetry; now apply String.eqb_neq).
  - destruct (String.eqb_spec k k0) as [-> | Hk]; simpl.
    + now replace (String.eqb k' k0) with false
        by (symmetry; now apply String.eqb_neq).
    + now rewrite IH.
Qed.

Lemma dict_has_item d k :
  dict_has d k = true -> exists v, dict_item d k = Ok v /\ In (k, v) d.
Proof.
  induction d as [|[k' v'] d IH]; simpl; [discriminate|].
  destruct (String.eqb_spec k k') as [-> | Hne]; simpl.
  - intros _. exists v'. split; [reflexivity | now left].
  - intros Hhas. destruct (IH Hhas) as (v & Hv & Hin).
    exists v. split; [exact Hv | now right].
Qed.

End DictLemmas.

(** ** TimeframeResolver: what the provider can be asked *)

(** X1. A token that is not one of the sixteen keys of the table resolves
    to the default pair, interval "1d" with lookback "1y". *)
Theorem timeframe_unknown_token (timeframe : string) :
  ~ In timeframe (map fst interval_map) ->
  get_timeframe_period timeframe = ("1d", "1y")%string.
Proof. intros Hk. unfold get_timeframe_period. now apply dict_get_missing. Qed.

Lemma timeframe_unknown_token_witness :
  get_timeframe_period "bogus-token" = ("1d", "1y")%string.
Proof.
  apply (@timeframe_unknown_token "bogus-token").
  simpl. intros H.
  repeat (destruct H as [H | H]; [discriminate H|]). exact H.
Defined.

(** X2. Whatever the token, the interval handed to the provider is one of
    1m, 5m, 15m, 1h, 1d, 1wk, 1mo and the lookback is one of 1d, 5d, 1mo,
    3mo, 1y, 2y, 5y, 10y, max; in particular the business tokens 4h, 2d, 3d,
    2w and the like never reach the provider as intervals. *)
Theorem timeframe_provider_vocabulary (timeframe : string) :
  In (fst (get_timeframe_period timeframe))
     ["1m"; "5m"; "15m"; "1h"; "1d"; "1wk"; "1mo"]%string /\
  In (snd (get_timeframe_period timeframe))
     ["1d"; "5d"; "1mo"; "3mo"; "1y"; "2y"; "5y"; "10y"; "max"]%string.
Proof.
  unfold get_timeframe_period.
  pose proof (dict_get_cases interval_map timeframe ("1d", "1y")%string) as Hc.
  set (r := dict_get interval_map timeframe ("1d", "1y")%string) in *.
  destruct Hc as [-> | Hin].
  - split; simpl; auto 12.
  - simpl in Hin.
    repeat (destruct Hin as [<- | Hin]; [split; simpl; auto 12|]). contradiction.
Qed.

(** ** SymbolNormalizer: when a symbol is changed *)

Lemma string_length_append (s t : string) :
  String.length (s ++ t) = (String.length s + String.length t)%nat.
Proof. induction s as [|c s IH]; simpl; [reflexivity | now rewrite IH]. Qed.

Lemma append_suffix_neq (s : string) : (s ++ ".NS")%string <> s.
Proof.
  intros E. apply (f_equal String.length) in E.
  rewrite string_length_append in E. simpl in E. lia.
Qed.

(** X3. The normaliser returns its input unchanged exactly when the input
    contains ".NS" or ".BO", or is on the allow-list once upper-cased, or is
    longer than ten characters, or contains a dot; in every other case the
    result is the input with ".NS" appended. *)
Theorem format_symbol_unchanged_iff (symbol : string) :
  (format_symbol_for_yahoo symbol = symbol <->
   str_in ".NS" symbol = true \/ str_in ".BO" symbol = true \/
   list_in (upper symbol) common_us_symbols = true \/
   (10 < String.length symbol)%nat \/ str_in "." symbol = true) /\
  (format_symbol_for_yahoo symbol <> symbol ->
   format_symbol_for_yahoo symbol = (symbol ++ ".NS")%string).
Proof.
  unfold format_symbol_for_yahoo, indian_exchanges. simpl existsb.
  destruct (str_in ".NS" symbol); [simpl; split; [tauto | congruence]|].
  destruct (str_in ".BO" symbol); [simpl; split; [tauto | congruence]|].
  simpl orb.
  destruct (list_in (upper symbol) common_us_symbols);
    [split; [tauto | congruence]|].
  destruct (Nat.leb_spec (String.length symbol) 10) as [Hle | Hgt].
  - destruct (str_in "." symbol); simpl.
    + split; [tauto | congruence].
    + split; [|reflexivity]. split.
      * intros E. now apply append_suffix_neq in E.
      * intros [H | [H | [H | [H | H]]]]; try discriminate. lia.
  - simpl. split; [|congruence]. split; [intros _|reflexivity].
    right. right. right. now left.
Qed.

(** X4. Every symbol of the INDIAN popular list goes to the provider as it
    is.  Of the US popular list, the eight allow-listed symbols go as they
    are, and the other three, QQQ, BTC-USD and ETH-USD, get ".NS"
    appended. *)
Theorem popular_symbols_normalised :
  (forall s, In s (dict_get popular_symbols "INDIAN" []) ->
             format_symbol_for_yahoo s = s) /\
  (forall s, In s (dict_get popular_symbols "US" []) ->
             (In s ["QQQ"; "BTC-USD"; "ETH-USD"]%string ->
              format_symbol_for_yahoo s = (s ++ ".NS")%string) /\
             (~ In s ["QQQ"; "BTC-USD"; "ETH-USD"]%string ->
              format_symbol_for_yahoo s = s)).
Proof.
  split.
  - intros s Hin. simpl in Hin.
    repeat (destruct Hin as [<- | Hin]; [reflexivity|]). contradiction.
  - intros s Hin. simpl in Hin.
    repeat (destruct Hin as [<- | Hin];
            [split;
             [ intros Hq;
               first [reflexivity | exfalso; simpl in Hq; intuition discriminate]
             | intros Hn;
               first [reflexivity | exfalso; apply Hn; simpl; auto] ] |]).
    contradiction.
Qed.

(** ** Moving average and bands: degenerate periods *)

(** X5. With period 0 the moving average of a non-empty sequence raises
    [ZeroDivisionError] at its first step, and the Bollinger bands, which
    start from the moving average, raise the same. *)
Theorem calculate_sma_zero_period
        (F : Type) (num : PyFloat F) (values : list F) (multiplier : F) :
  values <> [] ->
  calculate_sma values 0 = Raise ZeroDivisionError /\
  calculate_bollinger_bands values 0 multiplier = Raise ZeroDivisionError.
Proof.
  intros Hne. destruct values as [|v rest]; [congruence|].
  assert (E : calculate_sma (v :: rest) 0 = Raise ZeroDivisionError) by reflexivity.
  split; [exact E|]. unfold calculate_bollinger_bands. now rewrite E.
Qed.

Lemma calculate_sma_zero_period_witness :
  calculate_sma [1; 2; 3]%float 0 = Raise ZeroDivisionError /\
  calculate_bollinger_bands [1; 2; 3]%float 0 2%float = Raise ZeroDivisionError.
Proof.
  apply (@calculate_sma_zero_period float PyFloat_binary64 [1; 2; 3]%float 2%float).
  discriminate.
Defined.

(** ** Moving average and bands in exact arithmetic *)

Section AveragesReal.

Local Open Scope R_scope.
Local Abbreviation sqrt := R_sqrt.sqrt.

Lemma fold_left_Rplus_bounds (lo hi : R) (xs : list R) :
  Forall (fun x => lo <= x <= hi) xs ->
  forall a,
    a + IZR (Py.len xs) * lo <= fold_left Rplus xs a <= a + IZR (Py.len xs) * hi.
Proof.
  unfold Py.len. induction 1 as [|x xs Hx _ IH]; intros a.
  - simpl. lra.
  - simpl fold_left. specialize (IH (a + x)).
    change (length (x :: xs)) with (S (length xs)).
    rewrite Nat2Z.inj_succ, succ_IZR. lra.
Qed.

Lemma mean_bounds (lo hi : R) (xs : list R) :
  xs <> [] -> Forall (fun x => lo <= x <= hi) xs -> lo <= mean xs <= hi.
Proof.
  intros Hne Hxs. unfold mean, py_sum. cbn [fdiv fadd of_int PyFloat_R].
  pose proof (fold_left_Rplus_bounds Hxs 0) as Hsum.
  set (s := fold_left Rplus xs 0) in *. set (n := IZR (Py.len xs)) in *.
  assert (Hn : 0 < n).
  { apply IZR_lt. unfold Py.len. destruct xs; [congruence | simpl; lia]. }
  assert (Ht : 0 < / n) by now apply Rinv_0_lt_compat.
  assert (Hi : n * / n = 1) by (apply Rinv_r; lra).
  unfold Rdiv. set (t := / n) in *.
  assert (Elo : n * lo * t = lo) by (transitivity (lo * (n * t)); [ring | rewrite Hi; ring]).
  assert (Ehi : n * hi * t = hi) by (transitivity (hi * (n * t)); [ring | rewrite Hi; ring]).
  assert (Hl : n * lo * t <= s * t) by (apply Rmult_le_compat_r; lra).
  assert (Hh : s * t <= n * hi * t) by (apply Rmult_le_compat_r; lra).
  lra.
Qed.

Lemma trailing_window_Forall (P : R -> Prop) (values : list R) (period : Z) (k : nat) :
  Forall P values ->
  (1 <= period)%Z -> (period - 1 <= Z.of_nat k)%Z -> (k < length values)%nat ->
  Forall P (trailing_window values (Z.of_nat k) period).
Proof.
  intros Hall Hp Hge Hk. unfold trailing_window. apply run_Forall.
  intros j Hj. unfold item. rewrite Forall_forall in Hall.
  apply Hall, nth_In. lia.
Qed.

Lemma trailing_window_nonempty (values : list R) (i period : Z) :
  (1 <= period)%Z -> trailing_window values i period <> [].
Proof. intros Hp. unfold trailing_window. now apply run_nonempty. Qed.

(** What [calculate_sma] returns for a period of at least one, entry by
    entry, with the window written as the specification writes it. *)
Lemma calculate_sma_windows (values : list R) (period : Z) :
  (1 <= period)%Z ->
  exists sma,
    calculate_sma values period = Ok sma /\
    length sma = length values /\
    forall k, (k < length values)%nat ->
      nth_error sma k
      = Some (if (Z.of_nat k <? period - 1)%Z then item values k
              else mean (trailing_window values (Z.of_nat k) period)).
Proof.
  intros Hp.
  destruct (@calculate_sma_entries R PyFloat_R values period)
    as (sma & Hsma & Hlen & Hent); [lia|].
  exists sma. split; [exact Hsma|]. split; [exact Hlen|].
  intros k Hk. rewrite (Hent k Hk).
  destruct (Z.ltb_spec (Z.of_nat k) (period - 1)) as [_ | Hge]; [reflexivity|].
  rewrite slice_trailing_window by assumption.
  unfold mean. now rewrite trailing_window_len by lia.
Qed.

Lemma sma_bounds (values : list R) (period : Z) (lo hi : R) :
  (1 <= period)%Z ->
  Forall (fun v => lo <= v <= hi) values ->
  exists sma,
    calculate_sma values period = Ok sma /\
    Forall (fun v => lo <= v <= hi) sma.
Proof.
  intros Hp Hall.
  destruct (calculate_sma_windows values Hp) as (sma & Hsma & Hlen & Hent).
  exists sma. split; [exact Hsma|].
  apply Forall_forall. intros v Hin. apply In_nth_error in Hin as (k & Hk).
  assert (Hlt : (k < length values)%nat)
    by (rewrite <- Hlen; apply nth_error_Some; congruence).
  rewrite (Hent k Hlt) in Hk. injection Hk as <-.
  destruct (Z.ltb_spec (Z.of_nat k) (period - 1)) as [_ | Hge].
  - unfold item. rewrite Forall_forall in Hall. now apply Hall, nth_In.
  - apply mean_bounds; [now apply trailing_window_nonempty|].
    now apply trailing_window_Forall.
Qed.

(** X7. With period 1 the moving average is the identity: the sequence is
    returned as it is. *)
Theorem calculate_sma_period_one (values : list R) :
  calculate_sma values 1 = Ok values.
Proof.
  destruct (@calculate_sma_windows values 1) as (sma & Hsma & Hlen & Hent); [lia|].
  rewrite Hsma. f_equal. apply nth_error_ext. intros k.
  destruct (Nat.lt_ge_cases k (length values)) as [Hk | Hk].
  - rewrite (Hent k Hk).
    replace (Z.of_nat k <? 1 - 1)%Z with false by (symmetry; apply Z.ltb_ge; lia).
    rewrite (nth_error_nth' values 0 Hk). f_equal.
    unfold trailing_window, run.
    replace (Z.to_nat (Z.of_nat k - 1 + 1)) with k by lia.
    change (Z.to_nat 1) with 1%nat. simpl.
    unfold mean, py_sum, item, Py.len. cbn [fdiv fadd of_int PyFloat_R].
    simpl. field.
  - transitivity (@None R); [|symmetry]; apply nth_error_None; lia.
Qed.

End AveragesReal.

(** ** Sizes at which nothing overflows

    The bounds on the inputs of the range and ordering properties are
    chosen so that every intermediate quantity of the computation stays,
    in exact arithmetic, below a fortieth of the largest binary64 number;
    rounding, which changes a result by a relative 2^-53 per operation,
    cannot close that gap. *)

Section Magnitudes.

Local Open Scope R_scope.

Lemma price_bound_pos : 0 <= price_bound.
Proof. unfold price_bound. apply IZR_le. apply Z.leb_le. vm_compute. reflexivity. Qed.

Lemma value_bound_pos : 0 <= value_bound.
Proof. unfold value_bound. apply IZR_le. apply Z.leb_le. vm_compute. reflexivity. Qed.

Lemma price_sums_fit :
  40 * (IZR period_bound * (2 * price_bound)) <= binary64_max.
Proof.
  unfold price_bound, binary64_max, period_bound. rewrite <- !mult_IZR.
  apply IZR_le. apply Z.leb_le. vm_compute. reflexivity.
Qed.

Lemma value_squares_fit :
  40 * (IZR period_bound * ((2 * value_bound) * (2 * value_bound))) <= binary64_max.
Proof.
  unfold value_bound, binary64_max, period_bound. rewrite <- !mult_IZR.
  apply IZR_le. apply Z.leb_le. vm_compute. reflexivity.
Qed.

Lemma value_sums_fit :
  40 * (IZR period_bound * value_bound) <= binary64_max.
Proof.
  unfold value_bound, binary64_max, period_bound. rewrite <- !mult_IZR.
  apply IZR_le. apply Z.leb_le. vm_compute. reflexivity.
Qed.

Lemma Rabs_between (a b : R) : Rabs a <= b -> - b <= a <= b.
Proof. unfold Rabs. destruct (Rcase_abs a); lra. Qed.

Lemma nth_within (B : R) (l : list R) (j : nat) :
  0 <= B -> Forall (fun p => Rabs p <= B) l -> Rabs (nth j l 0) <= B.
Proof.
  intros HB Hall.
  destruct (Nat.lt_ge_cases j (length l)) as [Hj | Hj].
  - rewrite Forall_forall in Hall. now apply Hall, nth_In.
  - rewrite nth_overflow by exact Hj. now rewrite Rabs_R0.
Qed.

Lemma py_sum_bounds (lo hi : R) (xs : list R) :
  Forall (fun x => lo <= x <= hi) xs ->
  IZR (Py.len xs) * lo <= py_sum xs <= IZR (Py.len xs) * hi.
Proof.
  intros Hxs. pose proof (fold_left_Rplus_bounds Hxs 0) as Hs.
  unfold py_sum. cbn [fadd of_int PyFloat_R]. lra.
Qed.

Lemma run_len (f : nat -> R) (lo count : Z) :
  (1 <= count)%Z -> Py.len (run f lo count) = count.
Proof.
  intros Hc. unfold Py.len, run. rewrite length_map, length_seq. lia.
Qed.

(** A sum of at most [period_bound] entries, each between 0 and [hi]. *)
Lemma window_sum_fits (xs : list R) (hi : R) :
  (Py.len xs <= period_bound)%Z ->
  Forall (fun x => 0 <= x <= hi) xs ->
  40 * (IZR period_bound * hi) <= binary64_max ->
  0 <= py_sum xs /\ 40 * py_sum xs <= binary64_max.
Proof.
  intros Hlen Hxs Hfit.
  destruct (py_sum_bounds Hxs) as [Hlo Hhi].
  assert (Hn : 0 <= IZR (Py.len xs)) by (apply IZR_le; unfold Py.len; lia).
  assert (Hn' : IZR (Py.len xs) <= IZR period_bound) by now apply IZR_le.
  split; [lra|].
  destruct xs as [|x xs'].
  - unfold py_sum in *. simpl in *. cbn [of_int PyFloat_R] in *.
    assert (0 <= binary64_max).
    { unfold binary64_max. apply IZR_le. apply Z.leb_le. vm_compute. reflexivity. }
    lra.
  - assert (Hh : 0 <= hi).
    { apply Forall_inv in Hxs. lra. }
    assert (IZR (Py.len (x :: xs')) * hi <= IZR period_bound * hi)
      by (apply Rmult_le_compat_r; assumption).
    lra.
Qed.

(** Within the bounds of C2 the sums of gains and of losses that the RSI
    loop averages fit. *)
Lemma rsi_sums_in_range (prices : list R) (period i : Z) :
  (1 <= period <= period_bound)%Z ->
  Forall (fun p => Rabs p <= price_bound) prices ->
  let gains := run (RsiSpec.gain prices) (i - period) period in
  let losses := run (RsiSpec.loss prices) (i - period) period in
  (0 <= py_sum gains /\ 40 * py_sum gains <= binary64_max) /\
  (0 <= py_sum losses /\ 40 * py_sum losses <= binary64_max).
Proof.
  intros [Hp Hpb] Hall. cbv zeta.
  assert (Hd : forall j, Rabs (RsiSpec.delta prices j) <= 2 * price_bound).
  { intros j. unfold RsiSpec.delta.
    pose proof (nth_within (S j) price_bound_pos Hall) as H1.
    pose proof (nth_within j price_bound_pos Hall) as H2.
    apply Rabs_le. apply Rabs_between in H1. apply Rabs_between in H2. lra. }
  pose proof price_bound_pos as HB.
  split; apply window_sum_fits with (hi := 2 * price_bound);
    try exact price_sums_fit; try (rewrite run_len; lia);
    apply run_Forall; intros j _.
  - unfold RsiSpec.gain. specialize (Hd j). apply Rabs_between in Hd.
    split; [apply Rmax_r | apply Rmax_lub; lra].
  - unfold RsiSpec.loss. specialize (Hd j). apply Rabs_between in Hd.
    split; [apply Rmax_r | apply Rmax_lub; lra].
Qed.

(** Within the bounds of C10 the window sum, the mean, every squared
    deviation and the sum of the squares fit. *)
Lemma bands_sums_in_range (values : list R) (period : Z) (k : nat) :
  (1 <= period <= period_bound)%Z ->
  Forall (fun v => Rabs v <= value_bound) values ->
  (period - 1 <= Z.of_nat k)%Z -> (k < length values)%nat ->
  let window := trailing_window values (Z.of_nat k) period in
  let m := mean window in
  let squares := map (fun x => (x - m) * (x - m)) window in
  40 * Rabs (py_sum window) <= binary64_max /\
  Rabs m <= value_bound /\
  Forall (fun y => 0 <= y /\ 40 * y <= binary64_max) squares /\
  0 <= py_sum squares /\ 40 * py_sum squares <= binary64_max.
Proof.
  intros [Hp Hpb] Hall Hge Hk. cbv zeta.
  pose proof value_bound_pos as HV.
  set (window := trailing_window values (Z.of_nat k) period).
  assert (Hw : Forall (fun v => - value_bound <= v <= value_bound) window).
  { apply trailing_window_Forall; try assumption.
    apply Forall_impl with (2 := Hall). intros v Hv. now apply Rabs_between. }
  assert (Hm : - value_bound <= mean window <= value_bound).
  { apply mean_bounds; [now apply trailing_window_nonempty | exact Hw]. }
  set (m := mean window) in *.
  assert (Hsq : Forall (fun y => 0 <= y <= (2 * value_bound) * (2 * value_bound))
                       (map (fun x => (x - m) * (x - m)) window)).
  { apply Forall_map. apply Forall_impl with (2 := Hw). intros x Hx. simpl.
    set (V := value_bound) in *. set (d := x - m).
    assert (Hd : - (2 * V) <= d <= 2 * V) by (unfold d; lra).
    pose proof (Rle_0_sqr d) as H0. unfold Rsqr in H0.
    assert (H1 : 0 <= (2 * V - d) * (2 * V + d)) by (apply Rmult_le_pos; lra).
    split; [exact H0|]. lra. }
  pose proof value_squares_fit as Hfit.
  assert (Hpos : 0 < IZR period_bound)
    by (apply IZR_lt; unfold period_bound; reflexivity).
  assert (Hlen : Py.len window = period)
    by (unfold window; apply trailing_window_len; lia).
  split; [|split; [now apply Rabs_le|split]].
  - destruct (py_sum_bounds Hw) as [Hlo Hhi]. rewrite Hlen in Hlo, Hhi.
    assert (Hn : 0 <= IZR period <= IZR period_bound)
      by (split; apply IZR_le; lia).
    assert (Hnv : IZR period * value_bound <= IZR period_bound * value_bound)
      by (apply Rmult_le_compat_r; lra).
    pose proof value_sums_fit as Hfit'.
    assert (Hs : Rabs (py_sum window) <= IZR period * value_bound)
      by (apply Rabs_le; lra).
    lra.
  - apply Forall_impl with (2 := Hsq). intros y [Hy0 Hy]. split; [exact Hy0|].
    assert (1 <= IZR period_bound)
      by (apply IZR_le; unfold period_bound; apply Z.leb_le; reflexivity).
    nra.
  - apply window_sum_fits with (hi := (2 * value_bound) * (2 * value_bound));
      [|exact Hsq|exact Hfit].
    unfold Py.len. rewrite length_map. fold (Py.len window). lia.
Qed.

End Magnitudes.

(** ** Relative strength index: trends and invariances *)

Section RsiTrends.

Local Open Scope R_scope.

Lemma fold_left_Rplus_gt (xs : list R) :
  xs <> [] -> Forall (fun x => 0 < x) xs ->
  forall a, a < fold_left Rplus xs a.
Proof.
  intros Hne Hxs a. destruct Hxs as [|x xs Hx Hrest]; [congruence|].
  simpl. apply Rlt_le_trans with (a + x); [lra|].
  apply fold_left_Rplus_ge. revert Hrest. apply Forall_impl. intros y Hy. lra.
Qed.

Lemma mean_pos (xs : list R) :
  xs <> [] -> Forall (fun x => 0 < x) xs -> 0 < mean xs.
Proof.
  intros Hne Hxs. unfold mean, py_sum. cbn [fdiv fadd of_int PyFloat_R].
  pose proof (fold_left_Rplus_gt Hne Hxs 0) as Hsum.
  assert (Hlen : 0 < IZR (Py.len xs)).
  { apply IZR_lt. unfold Py.len. destruct xs; [congruence | simpl; lia]. }
  apply Rmult_lt_0_compat; [exact Hsum|]. now apply Rinv_0_lt_compat.
Qed.

(** X11. When no price is below the one before it, every entry from index
    [period] on is 100 (for a period of at least one): nothing is lost in
    any window. *)
Theorem calculate_rsi_rising (prices : list R) (period : Z) :
  (1 <= period)%Z ->
  (forall j, (S j < length prices)%nat -> nth j prices 0 <= nth (S j) prices 0) ->
  forall k, (k < length prices)%nat -> (period <= Z.of_nat k)%Z ->
            nth_error (calculate_rsi prices period) k = Some 100.
Proof.
  intros Hp Hup k Hk Hsteady.
  rewrite calculate_rsi_steady, rsi_step_spec by assumption. f_equal.
  unfold RsiSpec.steady. cbv zeta.
  match goal with |- context [Req_dec_T ?a 0] =>
    destruct (Req_dec_T a 0) as [_ | Hne]; [reflexivity|]; exfalso; apply Hne
  end.
  apply mean_zero, run_Forall. intros j Hj.
  unfold RsiSpec.loss, RsiSpec.delta. apply Rmax_right.
  specialize (Hup j ltac:(lia)). lra.
Qed.

Lemma calculate_rsi_rising_witness :
  nth_error (calculate_rsi [10; 11; 11; 13] 2) 3 = Some 100.
Proof.
  apply (@calculate_rsi_rising [10; 11; 11; 13] 2); simpl; try lia.
  intros j Hj.
  destruct j as [|[|[|j]]]; simpl; try lra; lia.
Defined.

(** X12. When every price is below the one before it, every entry from
    index [period] on is 0 (for a period of at least one): nothing is
    gained in any window. *)
Theorem calculate_rsi_falling (prices : list R) (period : Z) :
  (1 <= period)%Z ->
  (forall j, (S j < length prices)%nat -> nth (S j) prices 0 < nth j prices 0) ->
  forall k, (k < length prices)%nat -> (period <= Z.of_nat k)%Z ->
            nth_error (calculate_rsi prices period) k = Some 0.
Proof.
  intros Hp Hdown k Hk Hsteady.
  rewrite calculate_rsi_steady, rsi_step_spec by assumption. f_equal.
  unfold RsiSpec.steady. cbv zeta.
  assert (Hgain : mean (run (RsiSpec.gain prices) (Z.of_nat k - period) period) = 0).
  { apply mean_zero, run_Forall. intros j Hj.
    unfold RsiSpec.gain, RsiSpec.delta. apply Rmax_right.
    specialize (Hdown j ltac:(lia)). lra. }
  assert (Hloss : 0 < mean (run (RsiSpec.loss prices) (Z.of_nat k - period) period)).
  { apply mean_pos; [now apply run_nonempty|]. apply run_Forall. intros j Hj.
    unfold RsiSpec.loss, RsiSpec.delta.
    specialize (Hdown j ltac:(lia)).
    apply Rlt_le_trans with (- (nth (S j) prices 0 - nth j prices 0)); [lra|].
    apply Rmax_l. }
  rewrite Hgain.
  match goal with |- context [Req_dec_T ?a 0] =>
    destruct (Req_dec_T a 0) as [E | _]; [rewrite E in Hloss; lra|]
  end.
  unfold Rdiv. rewrite Rmult_0_l, Rplus_0_r, Rinv_1. ring.
Qed.

Lemma calculate_rsi_falling_witness :
  nth_error (calculate_rsi [13; 12; 10; 9] 2) 3 = Some 0.
Proof.
  apply (@calculate_rsi_falling [13; 12; 10; 9] 2); simpl; try lia.
  intros j Hj.
  destruct j as [|[|[|j]]]; simpl; try lra; lia.
Defined.

End RsiTrends.

(** ** QuoteAssembler *)

Section IndexFromEnd.

Context {A : Type}.

Lemma index_minus1 (l : list A) (x : A) : Py.index (l ++ [x]) (-1) = Ok x.
Proof.
  unfold Py.index, Py.len. rewrite length_app. simpl length.
  change (-1 <? 0)%Z with true. cbv iota.
  replace (-1 + Z.of_nat (length l + 1) <? 0)%Z with false
    by (symmetry; apply Z.ltb_ge; lia).
  replace (Z.to_nat (-1 + Z.of_nat (length l + 1))) with (length l + 0)%nat by lia.
  now rewrite nth_error_app2, Nat.add_comm, Nat.add_sub by lia.
Qed.

Lemma index_minus2 (l : list A) (x y : A) : Py.index (l ++ [x; y]) (-2) = Ok x.
Proof.
  unfold Py.index, Py.len. rewrite length_app. simpl length.
  change (-2 <? 0)%Z with true. cbv iota.
  replace (-2 + Z.of_nat (length l + 2) <? 0)%Z with false
    by (symmetry; apply Z.ltb_ge; lia).
  replace (Z.to_nat (-2 + Z.of_nat (length l + 2))) with (length l + 0)%nat by lia.
  now rewrite nth_error_app2, Nat.add_comm, Nat.add_sub by lia.
Qed.

End IndexFromEnd.

Section QuoteLemmas.

Context {F : Type} `{PyFloat F}.
Variable ticker_info : string -> result Info.
Variable daily_history : string -> string -> result (list (Row F)).

(** The quote built from the last bar and the one before it; with a single
    bar, [last rest bar] is that bar itself. *)
Lemma fetch_symbol_data_value (symbol : string) (info : Info)
      (rest : list (Row F)) (bar : Row F) :
  ticker_info (format_symbol_for_yahoo symbol) = Ok info ->
  daily_history (format_symbol_for_yahoo symbol) "2d" = Ok (rest ++ [bar]) ->
  fetch_symbol_data ticker_info daily_history symbol
  = Some (Quote.mk (upper symbol) (dict_get info "longName" symbol)
                   (Close bar)
                   (Close bar - Close (last rest bar))%py
                   (((Close bar - Close (last rest bar)) / Close (last rest bar))
                    * of_int 100)%py).
Proof.
  intros Hinfo Hhist.
  unfold fetch_symbol_data, quote_body. rewrite Hinfo. simpl bind.
  rewrite Hhist. simpl bind. clear Hhist.
  destruct (rest ++ [bar]) as [|b0 hist'] eqn:E;
    [now destruct rest|]. rewrite <- E. clear E b0 hist'.
  rewrite map_app. simpl map. rewrite index_minus1. simpl bind.
  destruct rest as [|r rest'] using rev_ind.
  - reflexivity.
  - unfold Py.len. rewrite !length_app. simpl length.
    replace (1 <? Z.of_nat (length rest' + 1 + 1))%Z with true
      by (symmetry; apply Z.ltb_lt; lia).
    rewrite map_app. simpl map. rewrite <- app_assoc. simpl app.
    rewrite index_minus2. simpl bind.
    now rewrite last_last.
Qed.

(** X15. [fetch_symbol_data] returns a quote exactly when both provider
    calls return and the history has at least one bar; an exception from
    the metadata call or the history call, or an empty history, gives
    [None]. *)
Theorem fetch_symbol_data_some_iff (symbol : string) :
  (exists quote, fetch_symbol_data ticker_info daily_history symbol = Some quote)
  <->
  (exists info hist,
      ticker_info (format_symbol_for_yahoo symbol) = Ok info /\
      daily_history (format_symbol_for_yahoo symbol) "2d" = Ok hist /\
      hist <> []).
Proof.
  split.
  - intros [quote Hq]. unfold fetch_symbol_data, quote_body in Hq.
    destruct (ticker_info (format_symbol_for_yahoo symbol)) as [info|e];
      [|discriminate].
    destruct (daily_history (format_symbol_for_yahoo symbol) "2d") as [hist|e];
      [|discriminate].
    exists info, hist. repeat split. intros ->. discriminate.
  - intros (info & hist & Hinfo & Hhist & Hne).
    destruct (exists_last Hne) as (rest & bar & ->).
    eexists. exact (@fetch_symbol_data_value symbol info rest bar Hinfo Hhist).
Qed.

(** X16. With two bars or more, the quote carries the caller's symbol
    upper-cased (not the normalised one), the provider's [longName] or else
    the symbol as given, the last close as price, the last close minus the
    close before it as change, and that change over the close before it,
    times 100, as percentage. *)
Theorem fetch_symbol_data_two_bars (symbol : string) (info : Info)
        (rest : list (Row F)) (previous current : Row F) :
  ticker_info (format_symbol_for_yahoo symbol) = Ok info ->
  daily_history (format_symbol_for_yahoo symbol) "2d"
  = Ok (rest ++ [previous; current]) ->
  fetch_symbol_data ticker_info daily_history symbol
  = Some (Quote.mk (upper symbol) (dict_get info "longName" symbol)
                   (Close current)
                   (Close current - Close previous)%py
                   (((Close current - Close previous) / Close previous)
                    * of_int 100)%py).
Proof.
  intros Hinfo Hhist.
  change (rest ++ [previous; current]) with (rest ++ [previous] ++ [current]) in Hhist.
  rewrite app_assoc in Hhist.
  rewrite (@fetch_symbol_data_value symbol info (rest ++ [previous]) current Hinfo Hhist).
  now rewrite last_last.
Qed.

End QuoteLemmas.

Lemma fetch_symbol_data_two_bars_witness :
  let previous : Row float :=
    {| index_timestamp := 1700000000; Open := 99; High := 101; Low := 98;
       Close := 100; Volume := 1000 |}%float in
  let current : Row float :=
    {| index_timestamp := 1700086400; Open := 100; High := 111; Low := 100;
       Close := 110; Volume := 1200 |}%float in
  fetch_symbol_data (fun _ => Ok [("longName", "Tata Consultancy")]%string)
                    (fun _ _ => Ok [previous; current]) "tcs"
  = Some (Quote.mk "TCS" "Tata Consultancy" 110 (110 - 100)
                   (((110 - 100) / 100) * 100))%float.
Proof.
  intros previous current.
  exact (@fetch_symbol_data_two_bars float PyFloat_binary64
           (fun _ => Ok [("longName", "Tata Consultancy")]%string)
           (fun _ _ => Ok [previous; current]) "tcs"
           [("longName", "Tata Consultancy")]%string [] previous current
           eq_refl eq_refl).
Defined.

(** X17. With a single bar whose close is not zero, the quote reports that
    close as price and both the change and the percentage as 0. *)
Theorem fetch_symbol_data_single_bar
        (ticker_info : string -> result Info)
        (daily_history : string -> string -> result (list (Row R)))
        (symbol : string) (info : Info) (bar : Row R) :
  ticker_info (format_symbol_for_yahoo symbol) = Ok info ->
  daily_history (format_symbol_for_yahoo symbol) "2d"%string = Ok [bar] ->
  Close bar <> 0%R ->
  fetch_symbol_data ticker_info daily_history symbol
  = Some (Quote.mk (upper symbol) (dict_get info "longName" symbol)
                   (Close bar) 0%R 0%R).
Proof.
  intros Hinfo Hhist Hne.
  rewrite (@fetch_symbol_data_value R PyFloat_R ticker_info daily_history
             symbol info [] bar Hinfo Hhist).
  simpl last. cbn [fsub fdiv fmul of_int PyFloat_R].
  f_equal. f_equal; [ring | now field].
Qed.

Lemma fetch_symbol_data_single_bar_witness :
  let bar : Row R :=
    {| index_timestamp := 1700000000; Open := 99; High := 101; Low := 98;
       Close := 100; Volume := 1000 |}%R in
  fetch_symbol_data (fun _ => Ok []) (fun _ _ => Ok [bar]) "TCS"
  = Some (Quote.mk "TCS" "TCS" 100 0 0)%R.
Proof.
  intros bar.
  apply (@fetch_symbol_data_single_bar (fun _ => Ok []) (fun _ _ => Ok [bar])
           "TCS" [] bar); try reflexivity.
  simpl. lra.
Defined.

(** ** Symbol search *)

Lemma slice_first_ten {A : Type} (l : list A) :
  (length l <= 10)%nat -> Py.slice l 0 10 = l.
Proof.
  intros Hlen. unfold Py.slice, Py.clamp, Py.len.
  change (0 <? 0)%Z with false. change (10 <? 0)%Z with false. cbv iota.
  rewrite (Z.min_l 0), (Z.min_r 10) by lia. simpl skipn.
  replace (Z.to_nat (Z.of_nat (length l) - 0)) with (length l) by lia.
  apply firstn_all.
Qed.

Lemma dict_has_nonempty {V : Type} (d : list (string * V)) (k : string) :
  dict_has d k = true -> Nat.eqb (length d) 0 = false.
Proof. now destruct d. Qed.

Section SearchLemmas.

Variable ticker_info : string -> result Info.

(** A lookup whose answer carries a symbol appends one result. *)
Lemma lookup_hit (sym query : string) (asked : list string)
      (results : list SearchResult.t) (info : Info) :
  ticker_info sym = Ok info -> dict_has info "symbol" = true ->
  exists s,
    In ("symbol"%string, s) info /\
    lookup ticker_info sym query (asked, results)
    = (asked ++ [sym],
       results ++
         [SearchResult.mk s
            (dict_get info "longName" (dict_get info "shortName" query)) 0 0 0]).
Proof.
  intros Hinfo Hhas. destruct (dict_has_item info "symbol" Hhas) as (s & Hs & Hin).
  exists s. split; [exact Hin|].
  unfold lookup. rewrite Hinfo. simpl bind.
  rewrite (dict_has_nonempty info "symbol" Hhas), Hhas. simpl.
  rewrite Hs. reflexivity.
Qed.

(** A lookup that raises, or whose answer carries no symbol, appends
    nothing. *)
Lemma lookup_miss (sym query : string) (asked : list string)
      (results : list SearchResult.t) :
  (forall info, ticker_info sym = Ok info -> dict_has info "symbol" = false) ->
  lookup ticker_info sym query (asked, results) = (asked ++ [sym], results).
Proof.
  intros Hmiss. unfold lookup.
  destruct (ticker_info sym) as [info|e]; simpl bind; [|reflexivity].
  rewrite (Hmiss info eq_refl). now rewrite andb_false_r.
Qed.

Lemma lookup_cases (sym query : string) (asked : list string)
      (results : list SearchResult.t) :
  lookup ticker_info sym query (asked, results) = (asked ++ [sym], results) \/
  exists info s,
    ticker_info sym = Ok info /\ In ("symbol"%string, s) info /\
    lookup ticker_info sym query (asked, results)
    = (asked ++ [sym],
       results ++
         [SearchResult.mk s
            (dict_get info "longName" (dict_get info "shortName" query)) 0 0 0]).
Proof.
  destruct (ticker_info sym) as [info|e] eqn:Hinfo.
  - destruct (dict_has info "symbol") eqn:Hhas.
    + right.
      destruct (@lookup_hit sym query asked results info Hinfo Hhas) as (s & Hin & E).
      now exists info, s.
    + left. apply lookup_miss. intros info' E. congruence.
  - left. apply lookup_miss. intros info' E. congruence.
Qed.

Lemma search_symbols_asked (query : string) :
  fst (search_symbols ticker_info query) = [upper query] \/
  fst (search_symbols ticker_info query)
  = [upper query; (upper query ++ ".NS")%string].
Proof.
  unfold search_symbols.
  destruct (lookup_cases (upper query) query [] [])
    as [E1 | (info & s & _ & _ & E1)]; rewrite E1;
    cbn [fst snd length Nat.eqb andb app]; [|now left].
  destruct (String.length query <=? 10)%nat; [|now left].
  destruct (lookup_cases (upper query ++ ".NS") query [upper query] [])
    as [E2 | (info & s & _ & _ & E2)]; rewrite E2; now right.
Qed.

(** X18. A search asks the provider once or twice, first for the
    upper-cased query and then, at most, for the same with ".NS" appended;
    it returns at most one result, and that result carries the symbol the
    provider answered with for one of the symbols asked, with price,
    change and percentage all 0. *)
Theorem search_symbols_shape (query : string) :
  let asked := fst (search_symbols ticker_info query) in
  let results := snd (search_symbols ticker_info query) in
  (asked = [upper query] \/
   asked = [upper query; (upper query ++ ".NS")%string]) /\
  (length results <= 1)%nat /\
  Forall (fun r =>
            SearchResult.price r = 0%Z /\ SearchResult.change r = 0%Z /\
            SearchResult.changePercent r = 0%Z /\
            exists sym info,
              In sym asked /\ ticker_info sym = Ok info /\
              In ("symbol"%string, SearchResult.symbol r) info)
         results.
Proof.
  cbv zeta. unfold search_symbols.
  destruct (lookup_cases (upper query) query [] [])
    as [E1 | (info & s & Hinfo & Hin & E1)]; rewrite E1;
    cbn [fst snd length Nat.eqb andb app].
  - destruct (String.length query <=? 10)%nat.
    + destruct (lookup_cases (upper query ++ ".NS") query [upper query] [])
        as [E2 | (info & s & Hinfo & Hin & E2)]; rewrite E2;
        cbn [fst snd app].
      * split; [now right|]. split; [simpl; lia | constructor].
      * rewrite slice_first_ten by (simpl; lia).
        split; [now right|]. split; [simpl; lia|].
        constructor; [|constructor]. simpl. repeat split.
        exists (upper query ++ ".NS")%string, info. auto.
    + cbn [fst snd]. split; [now left|]. split; [simpl; lia | constructor].
  - rewrite slice_first_ten by (simpl; lia).
    split; [now left|]. split; [simpl; lia|].
    constructor; [|constructor]. simpl. repeat split.
    exists (upper query), info. auto.
Qed.

(** X19. The ".NS" variant is asked exactly when the query has at most
    ten characters and the first lookup gave nothing (it raised, or its
    answer carried no symbol).  When the first answer carries a symbol, the
    provider is asked once and the one result is built from that answer. *)
Theorem search_symbols_second_lookup (query : string) :
  (fst (search_symbols ticker_info query)
   = [upper query; (upper query ++ ".NS")%string]
   <->
   (String.length query <= 10)%nat /\
   forall info, ticker_info (upper query) = Ok info ->
                dict_has info "symbol" = false) /\
  (forall info,
      ticker_info (upper query) = Ok info -> dict_has info "symbol" = true ->
      exists s,
        In ("symbol"%string, s) info /\
        search_symbols ticker_info query
        = ([upper query],
           [SearchResult.mk s
              (dict_get info "longName" (dict_get info "shortName" query))
              0 0 0])).
Proof.
  assert (Hhit : forall info,
      ticker_info (upper query) = Ok info -> dict_has info "symbol" = true ->
      exists s,
        In ("symbol"%string, s) info /\
        search_symbols ticker_info query
        = ([upper query],
           [SearchResult.mk s
              (dict_get info "longName" (dict_get info "shortName" query))
              0 0 0])).
  { intros info Hinfo Hhas.
    destruct (@lookup_hit (upper query) query [] [] info Hinfo Hhas)
      as (s & Hin & E1).
    exists s. split; [exact Hin|]. unfold search_symbols. rewrite E1.
    cbn [fst snd length Nat.eqb andb app].
    now rewrite slice_first_ten by (simpl; lia). }
  split; [|exact Hhit]. split.
  - intros Hasked.
    destruct (Nat.leb_spec (String.length query) 10) as [Hle | Hgt].
    + split; [exact Hle|]. intros info Hinfo.
      destruct (dict_has info "symbol") eqn:Hhas; [|reflexivity].
      destruct (Hhit info Hinfo Hhas) as (s & _ & E).
      rewrite E in Hasked. discriminate.
    + exfalso. unfold search_symbols in Hasked.
      replace (String.length query <=? 10)%nat with false in Hasked
        by (symmetry; apply Nat.leb_gt; lia).
      rewrite andb_false_r in Hasked. discriminate.
  - intros [Hle Hmiss]. unfold search_symbols.
    rewrite (@lookup_miss (upper query) query [] [] Hmiss).
    cbn [fst snd length Nat.eqb andb app].
    replace (String.length query <=? 10)%nat with true
      by (symmetry; now apply Nat.leb_le).
    destruct (lookup_cases (upper query ++ ".NS") query [upper query] [])
      as [E2 | (info & s & _ & _ & E2)]; now rewrite E2.
Qed.

End SearchLemmas.

(** ** The web layer *)

Section RouteLemmas.

Context {F : Type} `{PyFloat F}.
Variable ticker_info : string -> result Info.
Variable daily_history : string -> string -> result (list (Row F)).

(** X20. [GET /api/symbol/<symbol>] answers 404 with the error "Symbol not
    found" exactly when the metadata call raises, the history call raises,
    or the history is empty; in every other case it answers 200 with a
    quote. *)
Theorem get_symbol_data_status (symbol : string) :
  let formatted := format_symbol_for_yahoo symbol in
  (get_symbol_data ticker_info daily_history symbol
   = (JError "Symbol not found", 404%Z)
   <->
   (exists e, ticker_info formatted = Raise e) \/
   (exists e, daily_history formatted "2d" = Raise e) \/
   daily_history formatted "2d" = Ok []) /\
  (get_symbol_data ticker_info daily_history symbol
   = (JError "Symbol not found", 404%Z) \/
   exists quote,
     get_symbol_data ticker_info daily_history symbol = (JQuote quote, 200%Z)).
Proof.
  cbv zeta. unfold get_symbol_data.
  destruct (ticker_info (format_symbol_for_yahoo symbol)) as [info|e] eqn:Hinfo.
  - destruct (daily_history (format_symbol_for_yahoo symbol) "2d")
      as [hist|e] eqn:Hhist.
    + destruct hist as [|b hist'] using rev_ind.
      * assert (E : fetch_symbol_data ticker_info daily_history symbol = None).
        { unfold fetch_symbol_data, quote_body. now rewrite Hinfo, Hhist. }
        rewrite E. split; [|now left]. split; [intros _|reflexivity].
        right. now right.
      * rewrite (@fetch_symbol_data_value F _ ticker_info daily_history
                   symbol info hist' b Hinfo Hhist).
        split; [|right; eexists; reflexivity]. split; [discriminate|].
        intros [[e E] | [[e E] | E]]; try discriminate.
        injection E as E. now destruct hist'.
    + assert (E : fetch_symbol_data ticker_info daily_history symbol = None).
      { unfold fetch_symbol_data, quote_body. now rewrite Hinfo, Hhist. }
      rewrite E. split; [|now left]. split; [intros _|reflexivity].
      right. left. now exists e.
  - assert (E : fetch_symbol_data ticker_info daily_history symbol = None).
    { unfold fetch_symbol_data, quote_body. now rewrite Hinfo. }
    rewrite E. split; [|now left]. split; [intros _|reflexivity].
    left. now exists e.
Qed.

(** X21. [GET /api/search] always answers 200 and asks the provider at
    most twice; when the [q] argument is missing or shorter than two
    characters it asks nothing and answers with the empty list. *)
Theorem search_symbols_route_bounds (args : list (string * string)) :
  let asked := fst (search_symbols_route (F := F) ticker_info args) in
  let response := snd (search_symbols_route (F := F) ticker_info args) in
  snd response = 200%Z /\
  (length asked <= 2)%nat /\
  ((String.length (dict_get args "q" ""%string) < 2)%nat ->
   asked = [] /\ response = (JSearch [], 200%Z)).
Proof.
  cbv zeta. unfold search_symbols_route.
  destruct (Nat.ltb_spec (String.length (dict_get args "q" ""%string)) 2)
    as [Hshort | Hlong].
  - simpl. repeat split; lia.
  - pose proof (search_symbols_asked ticker_info (dict_get args "q" ""%string))
      as Hasked.
    destruct (search_symbols ticker_info (dict_get args "q" ""%string))
      as [asked results].
    simpl in *. split; [reflexivity|]. split; [|lia].
    destruct Hasked as [-> | ->]; simpl; lia.
Qed.

End RouteLemmas.

(** X22. For every number type, [GET /api/chart/<symbol>/<timeframe>]
    answers 404 with the error "Chart data not found" exactly when the
    provider raises, returns no bars, returns a bar that does not convert
    (as when [int()] is given a NaN volume), or the bands of the oscillator
    are not returned; when the bars convert and the bands are returned it
    answers 200 with those candles and one RSI point per bar; and every 200
    answer carries at least one candle and as many RSI points as candles. *)
Theorem get_chart_data_status
        (F : Type) (num : PyFloat F)
        (history : string -> string -> string -> result (list (Row F)))
        (symbol timeframe : string) :
  let bars := history (format_symbol_for_yahoo symbol)
                      (snd (get_timeframe_period timeframe))
                      (fst (get_timeframe_period timeframe)) in
  let convert :=
    for_each (fun row candles => c <- candle_of_row row ;; Ok (candles ++ [c])) in
  let bands := fun cs : list (Candle.t F) =>
    calculate_bollinger_bands (calculate_rsi (map (@Candle.close F) cs) 14)
                              20 (of_int 2) in
  (get_chart_data history symbol timeframe
   = (JError "Chart data not found", 404%Z)
   <->
   (exists e, bars = Raise e) \/
   bars = Ok [] \/
   (exists hist e, bars = Ok hist /\ convert hist [] = Raise e) \/
   (exists hist cs e, bars = Ok hist /\ convert hist [] = Ok cs /\
                      bands cs = Raise e)) /\
  (forall hist cs upper lower,
     bars = Ok hist -> hist <> [] -> convert hist [] = Ok cs ->
     bands cs = Ok (upper, lower) ->
     exists rsi_data,
       get_chart_data history symbol timeframe
       = (JChart {| candles := cs; rsi := rsi_data |}, 200%Z) /\
       length cs = length hist /\
       length rsi_data = length hist) /\
  (forall payload status,
     get_chart_data history symbol timeframe = (JChart payload, status) ->
     status = 200%Z /\
     candles payload <> [] /\
     length (rsi payload) = length (candles payload)).
Proof.
  cbv zeta.
  destruct (@fetch_chart_data_none F num history symbol timeframe)
    as (Hraise & Hempty & Hconvert & Hbands).
  assert (Hok : forall hist cs upper lower,
    history (format_symbol_for_yahoo symbol)
            (snd (get_timeframe_period timeframe))
            (fst (get_timeframe_period timeframe)) = Ok hist -> hist <> [] ->
    for_each (fun row candles => c <- candle_of_row row ;; Ok (candles ++ [c]))
             hist [] = Ok cs ->
    calculate_bollinger_bands (calculate_rsi (map (@Candle.close F) cs) 14)
                              20 (of_int 2) = Ok (upper, lower) ->
    exists rsi_data,
      get_chart_data history symbol timeframe
      = (JChart {| candles := cs; rsi := rsi_data |}, 200%Z) /\
      length cs = length hist /\
      length rsi_data = length hist).
  { intros hist cs up lo Hhist Hne Hcs Hbb.
    destruct (@chart_body_aligned F num history symbol timeframe hist cs up lo
                Hhist Hne Hcs Hbb)
      as (rsi_ma & rsi_data & _ & Hfetch & Hlen & _).
    exists rsi_data. unfold get_chart_data. rewrite Hfetch.
    apply for_each_convert_length in Hcs. simpl in Hcs.
    split; [reflexivity|]. split; congruence. }
  assert (Hnone : fetch_chart_data history symbol timeframe = None ->
                  get_chart_data history symbol timeframe
                  = (JError "Chart data not found", 404%Z)).
  { intros E. unfold get_chart_data. now rewrite E. }
  split; [|split; [exact Hok|]].
  - split.
    + intros H404.
      destruct (history (format_symbol_for_yahoo symbol)
                        (snd (get_timeframe_period timeframe))
                        (fst (get_timeframe_period timeframe)))
        as [hist|e] eqn:Hbars; [|left; now exists e].
      destruct hist as [|row hist]; [right; now left|].
      right. right.
      destruct (for_each (fun row candles =>
                            c <- candle_of_row row ;; Ok (candles ++ [c]))
                         (row :: hist) []) as [cs|e] eqn:Hcs;
        [|left; now exists (row :: hist), e].
      right.
      destruct (calculate_bollinger_bands
                  (calculate_rsi (map (@Candle.close F) cs) 14) 20 (of_int 2))
        as [[up lo]|e] eqn:Hbb; [|now exists (row :: hist), cs, e].
      destruct (Hok (row :: hist) cs up lo eq_refl ltac:(discriminate) Hcs Hbb)
        as (rsi_data & E & _).
      rewrite E in H404. discriminate.
    + intros [[e He] | [He | [(hist & e & Hb & He) | (hist & cs & e & Hb & Hc & He)]]];
        apply Hnone.
      * now apply (Hraise e).
      * now apply Hempty.
      * now apply (Hconvert hist e).
      * now apply (Hbands hist cs e).
  - intros payload status Hget.
    destruct (history (format_symbol_for_yahoo symbol)
                      (snd (get_timeframe_period timeframe))
                      (fst (get_timeframe_period timeframe)))
      as [hist|e] eqn:Hbars;
      [|rewrite (Hnone (Hraise e eq_refl)) in Hget; discriminate].
    destruct hist as [|row hist];
      [rewrite (Hnone (Hempty eq_refl)) in Hget; discriminate|].
    destruct (for_each (fun row candles =>
                          c <- candle_of_row row ;; Ok (candles ++ [c]))
                       (row :: hist) []) as [cs|e] eqn:Hcs;
      [|rewrite (Hnone (Hconvert _ e eq_refl Hcs)) in Hget; discriminate].
    destruct (calculate_bollinger_bands
                (calculate_rsi (map (@Candle.close F) cs) 14) 20 (of_int 2))
      as [[up lo]|e] eqn:Hbb;
      [|rewrite (Hnone (Hbands _ cs e eq_refl Hcs Hbb)) in Hget; discriminate].
    destruct (Hok (row :: hist) cs up lo eq_refl ltac:(discriminate) Hcs Hbb)
      as (rsi_data & E & Hl1 & Hl2).
    rewrite E in Hget. injection Hget as <- <-. simpl candles. simpl rsi.
    split; [reflexivity|]. split; [|congruence].
    destruct cs; [discriminate Hl1 | discriminate].
Qed.

(** A bar whose volume is NaN does not convert: [int()] raises, and the
    route answers 404 (binary64). *)
Example get_chart_data_nan_volume_run :
  get_chart_data (F := float)
    (fun _ _ _ => Ok [ {| index_timestamp := 1700000000; Open := 1; High := 3;
                          Low := 1; Close := 2; Volume := nan |} ]%float)
    "TCS" "1d"
  = (JError "Chart data not found", 404%Z).
Proof. vm_compute. reflexivity. Qed.

(** ** Watchlists *)

Section WatchlistLemmas.

Context {F : Type} `{PyFloat F}.
Variable ticker_info : string -> result Info.
Variable daily_history : string -> string -> result (list (Row F)).

Lemma find_first {A : Type} (p : A -> bool) (before after : list A) (x : A) :
  (forall y, In y before -> p y = false) -> p x = true ->
  find p (before ++ x :: after) = Some x.
Proof.
  intros Hbefore Hx. induction before as [|y before IH]; simpl.
  - now rewrite Hx.
  - rewrite (Hbefore y) by now left. apply IH.
    intros z Hz. apply Hbefore. now right.
Qed.

Lemma find_absent {A : Type} (p : A -> bool) (l : list A) :
  (forall y, In y l -> p y = false) -> find p l = None.
Proof.
  intros Hl. induction l as [|y l IH]; simpl; [reflexivity|].
  rewrite (Hl y) by now left. apply IH. intros z Hz. apply Hl. now right.
Qed.

Lemma collect_quotes (symbols : list string) :
  forall acc,
    fold_left
      (fun symbol_data symbol =>
         match fetch_symbol_data ticker_info daily_history symbol with
         | Some data => symbol_data ++ [data]
         | None => symbol_data
         end) symbols acc
    = acc ++ flat_map
               (fun symbol =>
                  match fetch_symbol_data ticker_info daily_history symbol with
                  | Some data => [data]
                  | None => []
                  end) symbols.
Proof.
  induction symbols as [|s symbols IH]; intros acc; simpl.
  - now rewrite app_nil_r.
  - rewrite IH.
    destruct (fetch_symbol_data ticker_info daily_history s); simpl.
    + now rewrite <- app_assoc.
    + reflexivity.
Qed.

Lemma flat_map_option_length {A B : Type} (f : A -> option B) (l : list A) :
  (length (flat_map (fun a => match f a with Some b => [b] | None => [] end) l)
   <= length l)%nat.
Proof.
  induction l as [|a l IH]; simpl; [lia|].
  rewrite length_app. destruct (f a); simpl; lia.
Qed.

(** X23. [GET /api/watchlist/<id>/data] answers 404 with the error
    "Watchlist not found" when no stored watchlist has that id.  Otherwise
    it answers 200 for the first watchlist with that id, and the quotes it
    returns are exactly those of the watchlist's symbols whose fetch
    succeeds: a symbol whose fetch fails is left out, so there are at most
    as many quotes as symbols, and none at all when every fetch fails. *)
Theorem get_watchlist_data_contract (session : Session) (watchlist_id : string) :
  let watchlists := dict_get session "watchlists" [] in
  ((forall w, In w watchlists -> Watchlist.id w <> watchlist_id) ->
   get_watchlist_data ticker_info daily_history session watchlist_id
   = (JError "Watchlist not found", 404%Z)) /\
  (forall before w after,
     watchlists = before ++ w :: after ->
     (forall w', In w' before -> Watchlist.id w' <> watchlist_id) ->
     Watchlist.id w = watchlist_id ->
     exists symbol_data,
       get_watchlist_data ticker_info daily_history session watchlist_id
       = (JWatchlistData w symbol_data, 200%Z) /\
       (length symbol_data <= length (Watchlist.symbols w))%nat /\
       (forall quote,
           In quote symbol_data <->
           exists symbol,
             In symbol (Watchlist.symbols w) /\
             fetch_symbol_data ticker_info daily_history symbol = Some quote) /\
       ((forall symbol, In symbol (Watchlist.symbols w) ->
                        fetch_symbol_data ticker_info daily_history symbol = None) ->
        symbol_data = [])).
Proof.
  cbv zeta. split.
  - intros Hnone. unfold get_watchlist_data.
    rewrite find_absent; [reflexivity|].
    intros w Hw. apply String.eqb_neq. now apply Hnone.
  - intros before w after Hsplit Hbefore Hid.
    unfold get_watchlist_data. rewrite Hsplit.
    rewrite find_first;
      [| intros y Hy; apply String.eqb_neq; now apply Hbefore
       | now apply String.eqb_eq ].
    rewrite collect_quotes. simpl app.
    eexists. split; [reflexivity|]. split; [apply flat_map_option_length|]. split.
    + intros quote. rewrite in_flat_map. split.
      * intros (s & Hs & Hq). exists s. split; [exact Hs|].
        destruct (fetch_symbol_data ticker_info daily_history s) as [d|];
          simpl in Hq; [|contradiction].
        destruct Hq as [-> | []]. reflexivity.
      * intros (s & Hs & Hq). exists s. split; [exact Hs|].
        rewrite Hq. now left.
    + intros Hall. induction (Watchlist.symbols w) as [|s l IH]; [reflexivity|].
      simpl. rewrite (Hall s) by now left. simpl.
      apply IH. intros s' Hs'. apply Hall. now right.
Qed.

(** X24. What [POST /api/watchlists] stores is what [GET /api/watchlists]
    returns afterwards, whatever the session held before; the other keys
    of the session are left as they were; and a session that never stored
    watchlists answers with the empty list. *)
Theorem watchlists_round_trip (session : Session) (posted : list Watchlist.t) :
  let session' := fst (save_watchlists (F := F) session posted) in
  get_watchlists (F := F) session' = (JWatchlists posted, 200%Z) /\
  (forall key, key <> "watchlists"%string ->
               dict_get session' key [] = dict_get session key []) /\
  (~ In "watchlists"%string (map fst session) ->
   get_watchlists (F := F) session = (JWatchlists [], 200%Z)).
Proof.
  cbv zeta. unfold get_watchlists, save_watchlists. simpl fst. split; [|split].
  - now rewrite dict_get_set.
  - intros key Hkey. now apply dict_get_set_other.
  - intros Hmissing. now rewrite dict_get_missing.
Qed.

End WatchlistLemmas.

(** ** The chart overlay as a whole, in exact arithmetic *)

Section ChartOverlay.

Local Open Scope R_scope.

Variable history : string -> string -> string -> result (list (Row R)).

Lemma bands_in_order (values : list R) (period : Z) (multiplier : R)
      (upper lower : list R) :
  (1 <= period)%Z -> 0 <= multiplier ->
  calculate_bollinger_bands values period multiplier = Ok (upper, lower) ->
  forall k u l, nth_error upper k = Some u -> nth_error lower k = Some l -> l <= u.
Proof.
  intros Hp Hm Hbb k u l Eu El.
  destruct (@bollinger_structure_real values period multiplier Hp)
    as (sma & upper' & lower' & _ & Hbb' & Hu & _ & Hwarm & Hsteady).
  rewrite Hbb in Hbb'. injection Hbb' as <- <-.
  assert (Hk : (k < length values)%nat)
    by (rewrite <- Hu; apply nth_error_Some; congruence).
  destruct (Z_lt_le_dec (Z.of_nat k) (period - 1)) as [Hlt | Hge].
  - destruct (Hwarm k Hk Hlt) as [Eu' El'].
    rewrite Eu in Eu'. rewrite El in El'.
    injection Eu' as ->. injection El' as ->.
    cbn [fadd fsub of_int PyFloat_R]. lra.
  - destruct (Hsteady k Hk Hge) as [Eu' El'].
    rewrite Eu in Eu'. rewrite El in El'.
    injection Eu' as ->. injection El' as ->.
    cbn [fadd fsub fmul fsqrt PyFloat_R].
    match goal with |- context [R_sqrt.sqrt ?v] =>
      pose proof (sqrt_pos v) as Hs end.
    nra.
Qed.

(** X25. With numbers read as exact reals and closes of magnitude at most
    10^300 (so that nothing overflows), every chart that is returned has
    one overlay point per bar, and every point has an RSI value between 0
    and 100, a moving average between 0 and 100, and a lower band that is
    not above the upper band. *)
Theorem chart_overlay_ranges (symbol timeframe : string) (hist : list (Row R))
        (payload : ChartPayload R) :
  history (format_symbol_for_yahoo symbol)
          (snd (get_timeframe_period timeframe))
          (fst (get_timeframe_period timeframe)) = Ok hist ->
  Forall (fun row => Rabs (Close row) <= price_bound) hist ->
  fetch_chart_data history symbol timeframe = Some payload ->
  length (rsi payload) = length hist /\
  Forall (fun p =>
            0 <= RsiPoint.value p <= 100 /\
            0 <= RsiPoint.ma p <= 100 /\
            RsiPoint.lowerBB p <= RsiPoint.upperBB p)
         (rsi payload).
Proof.
  intros Hhist _ Hpayload.
  assert (Hne : hist <> []).
  { intros ->.
    destruct (@fetch_chart_data_none R PyFloat_R history symbol timeframe)
      as (_ & Hempty & _).
    rewrite (Hempty Hhist) in Hpayload. discriminate. }
  destruct (candles_of_rows hist) as (cs & Hcs & Hconv).
  apply Forall2_length in Hconv.
  destruct (@chart_body_aligned_real history symbol timeframe hist cs
              Hhist Hne Hcs)
    as (rsi_ma & up & lo & rsi_data & Hsma & Hbb & Hfetch & Hlen & Hpoints).
  rewrite Hfetch in Hpayload. injection Hpayload as <-.
  simpl rsi. split; [congruence|].
  apply Forall_forall. intros p Hin.
  apply In_nth_error in Hin as (k & Hk).
  assert (Hlt : (k < length cs)%nat)
    by (rewrite <- Hlen; apply nth_error_Some; congruence).
  destruct (nth_error cs k) as [c|] eqn:Hc;
    [| apply nth_error_None in Hc; lia].
  destruct (Hpoints k c Hc) as (v & m & u & l & Hv & Hm & Hu & Hl & Hp).
  rewrite Hk in Hp. injection Hp as ->. simpl.
  pose proof (@rsi_in_range (map (@Candle.close R) cs) 14 ltac:(lia)) as Hrange.
  split; [|split].
  - rewrite Forall_forall in Hrange. apply Hrange. eapply nth_error_In, Hv.
  - destruct (@sma_bounds (calculate_rsi (map (@Candle.close R) cs) 14) 9 0 100
                ltac:(lia) Hrange) as (sma & Hsma' & Hall).
    rewrite Hsma in Hsma'. injection Hsma' as <-.
    rewrite Forall_forall in Hall. apply Hall. eapply nth_error_In, Hm.
  - eapply (@bands_in_order _ 20 2 up lo); try eassumption; [lia | lra].
Qed.

End ChartOverlay.

Lemma chart_overlay_ranges_witness :
  let history := fun _ _ _ : string => Ok sample_bars in
  exists payload,
    fetch_chart_data history "TCS"%string "1d"%string = Some payload /\
    length (rsi payload) = 21%nat /\
    Forall (fun p =>
              (0 <= RsiPoint.value p <= 100)%R /\
              (0 <= RsiPoint.ma p <= 100)%R /\
              (RsiPoint.lowerBB p <= RsiPoint.upperBB p)%R)
           (rsi payload).
Proof.
  intros history'.
  destruct (candles_of_rows sample_bars) as (cs & Hcs & _).
  destruct (@chart_body_aligned_real history' "TCS"%string "1d"%string
              sample_bars cs eq_refl ltac:(discriminate) Hcs)
    as (rsi_ma & up & lo & rsi_data & _ & _ & Hfetch & _).
  exists {| candles := cs; rsi := rsi_data |}. split; [exact Hfetch|].
  apply (@chart_overlay_ranges history' "TCS"%string "1d"%string sample_bars
           {| candles := cs; rsi := rsi_data |} eq_refl); [|exact Hfetch].
  pose proof price_bound_large as Hb.
  unfold sample_bars, sample_closes. simpl map.
  repeat (apply Forall_cons; [simpl; apply Rabs_le; lra|]). apply Forall_nil.
Defined.

(** ** The overlay of a short history, in binary64 *)

Lemma short_overlay_binary64 (n : nat) :
  (n <= 14)%nat ->
  calculate_sma (repeat 50%float n) 9 = Ok (repeat 50%float n) /\
  calculate_bollinger_bands (repeat 50%float n) 20 2%float
  = Ok (repeat 60%float n, repeat 40%float n).
Proof.
  intros Hn.
  do 15 (destruct n as [|n]; [split; vm_compute; reflexivity|]).
  lia.
Qed.

(** X26. In binary64, a history of at most fourteen bars whose rows
    convert gives a flat overlay: the chart is returned with one point per
    bar, and every point has RSI value 50, moving average 50, upper band 60
    and lower band 40, whatever the closes are. *)
Theorem chart_overlay_short_history
        (history : string -> string -> string -> result (list (Row float)))
        (symbol timeframe : string) (hist : list (Row float))
        (cs : list (Candle.t float)) :
  history (format_symbol_for_yahoo symbol)
          (snd (get_timeframe_period timeframe))
          (fst (get_timeframe_period timeframe)) = Ok hist ->
  hist <> [] ->
  (length hist <= 14)%nat ->
  for_each (fun row candles => c <- candle_of_row row ;; Ok (candles ++ [c]))
           hist [] = Ok cs ->
  exists rsi_data,
    fetch_chart_data history symbol timeframe
    = Some {| candles := cs; rsi := rsi_data |} /\
    length rsi_data = length hist /\
    Forall (fun p =>
              RsiPoint.value p = 50%float /\ RsiPoint.ma p = 50%float /\
              RsiPoint.upperBB p = 60%float /\ RsiPoint.lowerBB p = 40%float)
           rsi_data.
Proof.
  intros Hhist Hne Hshort Hcs.
  assert (Hlen_cs : length cs = length hist).
  { apply for_each_convert_length in Hcs. simpl in Hcs. exact Hcs. }
  assert (E50 : of_int 50 = 50%float) by (vm_compute; reflexivity).
  assert (E2 : of_int 2 = 2%float) by (vm_compute; reflexivity).
  assert (Hrsi : calculate_rsi (map (@Candle.close float) cs) 14
                 = repeat 50%float (length cs)).
  { rewrite (@calculate_rsi_short float PyFloat_binary64)
      by (unfold Py.len; rewrite length_map; lia).
    now rewrite length_map, E50. }
  destruct (@short_overlay_binary64 (length cs) ltac:(lia)) as [Hsma50 Hbb50].
  assert (Hbb : calculate_bollinger_bands
                  (calculate_rsi (map (@Candle.close float) cs) 14) 20 (of_int 2)
                = Ok (repeat 60%float (length cs), repeat 40%float (length cs))).
  { now rewrite Hrsi, E2. }
  destruct (@chart_body_aligned float PyFloat_binary64 history symbol timeframe
              hist cs _ _ Hhist Hne Hcs Hbb)
    as (rsi_ma & rsi_data & Hsma & Hfetch & Hlen & Hpoints).
  rewrite Hrsi in Hsma, Hpoints. rewrite Hsma50 in Hsma. injection Hsma as <-.
  exists rsi_data. split; [exact Hfetch|]. split; [congruence|].
  apply Forall_forall. intros p Hin.
  apply In_nth_error in Hin as (k & Hk).
  assert (Hlt : (k < length cs)%nat)
    by (rewrite <- Hlen; apply nth_error_Some; congruence).
  destruct (nth_error cs k) as [c|] eqn:Hc;
    [| apply nth_error_None in Hc; lia].
  destruct (Hpoints k c Hc) as (v & m & u & l & Hv & Hm & Hu & Hl & Hp).
  rewrite Hk in Hp. injection Hp as ->. simpl.
  rewrite nth_error_repeat in Hv, Hm, Hu, Hl by exact Hlt.
  injection Hv as <-. injection Hm as <-. injection Hu as <-. injection Hl as <-.
  repeat split.
Qed.

(** Three bars with closes 2, 3 and 1: the overlay is flat. *)
Lemma chart_overlay_short_history_witness :
  let row := fun c : float =>
    {| index_timestamp := 1700000000%float; Open := c; High := c; Low := c;
       Close := c; Volume := 1000%float |} in
  let candle := fun c : float => Candle.mk 1700000000000 c c c c 1000 in
  let history := fun _ _ _ : string => Ok [row 2%float; row 3%float; row 1%float] in
  exists rsi_data,
    fetch_chart_data history "TCS"%string "1d"%string
    = Some {| candles := [candle 2%float; candle 3%float; candle 1%float];
              rsi := rsi_data |} /\
    length rsi_data = 3%nat /\
    Forall (fun p =>
              RsiPoint.value p = 50%float /\ RsiPoint.ma p = 50%float /\
              RsiPoint.upperBB p = 60%float /\ RsiPoint.lowerBB p = 40%float)
           rsi_data.
Proof.
  intros row candle history'.
  apply (@chart_overlay_short_history history' "TCS"%string "1d"%string
           [row 2%float; row 3%float; row 1%float]).
  - reflexivity.
  - discriminate.
  - simpl. lia.
  - vm_compute. reflexivity.
Defined.

(** ** The chart and its inputs *)

Section ChartInputs.

Context {F : Type} `{PyFloat F}.
Variable history : string -> string -> string -> result (list (Row F)).

(** X27. A timeframe token that is not in the table gives the same chart
    as the token "1d": the request is answered with daily bars over one
    year, without any error. *)
Theorem fetch_chart_data_unknown_timeframe (symbol timeframe : string) :
  ~ In timeframe (map fst interval_map) ->
  fetch_chart_data history symbol timeframe
  = fetch_chart_data history symbol "1d".
Proof.
  intros Hk. unfold fetch_chart_data, chart_body.
  unfold get_timeframe_period at 1. now rewrite dict_get_missing.
Qed.

(** X28. Asking for the chart of a symbol that is already normalised gives
    the same chart as asking for the raw symbol. *)
Theorem fetch_chart_data_normalised_symbol (symbol timeframe : string) :
  fetch_chart_data history (format_symbol_for_yahoo symbol) timeframe
  = fetch_chart_data history symbol timeframe.
Proof.
  unfold fetch_chart_data, chart_body.
  replace (format_symbol_for_yahoo (format_symbol_for_yahoo symbol))
    with (format_symbol_for_yahoo symbol); [reflexivity|].
  destruct (format_symbol_cases symbol) as [E | E]; rewrite E.
  - now rewrite E.
  - symmetry. apply format_symbol_qualified, str_in_append.
Qed.

End ChartInputs.

Lemma fetch_chart_data_unknown_timeframe_witness :
  fetch_chart_data (F := float) (fun _ _ _ => Ok []) "TCS" "bogus-token"
  = fetch_chart_data (F := float) (fun _ _ _ => Ok []) "TCS" "1d".
Proof.
  apply (@fetch_chart_data_unknown_timeframe float PyFloat_binary64
           (fun _ _ _ => Ok []) "TCS"%string "bogus-token"%string).
  simpl. intros Hin.
  repeat (destruct Hin as [Hin | Hin]; [discriminate Hin|]). exact Hin.
Defined.
